(** * Log ingestion, filtering and archival engine of ivi-toolbox-pro

    A shallow embedding of the logcat pipeline found in
    [Adayo_Mega_TestTool.py] (parser, filter, bounded live view, worker
    life cycle), [ai_root_gain.py] (rotating archive writer, foreground
    monitor) and [ivi_toolbox.py] (crash marker scan and monitor of
    [LogcatAnalyzer], command and session report of [LogcatAdvanced]), with
    the properties of the specification stated over these definitions,
    followed by further properties of the same code.

    Text model.  A Python [str] is a [string]; a character is a code point
    below 256 (an [ascii]).  The character classes [\d], [\s], [.] and the
    white space of [str.strip] are given exactly on that range.  A literal
    of the source holding a code point above 255 (the markup emoji of the
    analyzer) is carried as its UTF-8 bytes; such text is only ever copied
    to the output. *)

From Stdlib Require Import ZArith List String Ascii Bool Lia.
From stdpp Require Import base option list gmap strings pretty.

Open Scope string_scope.
Open Scope list_scope.
Open Scope Z_scope.

(** ** Python runtime: exceptions *)

Module Py.

Inductive Exc : Type :=
| AttributeError | TypeError | ValueError | KeyError
| FileNotFoundError | TimeoutExpired | OSError | ReError.

(** [Exception] is the base of every member of [Exc]. *)
Inductive result (A : Type) : Type :=
| Ok (a : A)
| Raise (e : Exc).
Arguments Ok {A} a.
Arguments Raise {A} e.

Definition bind {A B} (r : result A) (k : A -> result B) : result B :=
  match r with
  | Ok a => k a
  | Raise e => Raise e
  end.

(** [try: body / except Exception: handler]. *)
Definition try_except {A} (body : result A) (handler : Exc -> result A)
  : result A :=
  match body with
  | Ok a => Ok a
  | Raise e => handler e
  end.

Definition returns {A} (r : result A) : Prop := exists a, r = Ok a.

(** ** Python runtime: strings *)

(** [Py_UNICODE_ISSPACE] below 256: TAB..CR, FS..US, SPACE, NEL, NBSP. *)
Definition isspace (c : ascii) : bool :=
  let n := Z.of_nat (nat_of_ascii c) in
  ((9 <=? n) && (n <=? 13)) || ((28 <=? n) && (n <=? 32))
  || (n =? 133) || (n =? 160).

(** [Py_UNICODE_ISDECIMAL] below 256: the ten ASCII digits. *)
Definition isdecimal (c : ascii) : bool :=
  let n := Z.of_nat (nat_of_ascii c) in (48 <=? n) && (n <=? 57).

Fixpoint lstrip (s : string) : string :=
  match s with
  | String c s' => if isspace c then lstrip s' else s
  | EmptyString => EmptyString
  end.

Fixpoint rstrip (s : string) : string :=
  match s with
  | String c s' =>
      match rstrip s' with
      | EmptyString => if isspace c then EmptyString else String c EmptyString
      | t => String c t
      end
  | EmptyString => EmptyString
  end.

(** [s.strip()] *)
Definition strip (s : string) : string := rstrip (lstrip s).

(** [needle in hay] *)
Fixpoint contains (needle hay : string) : bool :=
  String.prefix needle hay
  || match hay with
     | String _ hay' => contains needle hay'
     | EmptyString => false
     end.

(** [a < b] on [str]: lexicographic on code points. *)
Definition str_lt (a b : string) : bool := String.ltb a b.

(** [int(s)] for the digit strings a [\d+] group captures; any other
    character makes [int] raise [ValueError]. *)
Fixpoint digits_value (acc : Z) (s : string) : option Z :=
  match s with
  | EmptyString => Some acc
  | String c s' =>
      if isdecimal c
      then digits_value (10 * acc + (Z.of_nat (nat_of_ascii c) - 48)) s'
      else None
  end.

(** [sys.int_info.default_max_str_digits]: a decimal string of more
    digits makes [int] raise [ValueError] (CPython 3.11, and the security
    releases of the earlier versions) *)
Definition MAX_STR_DIGITS : Z := 4300.

Definition int (s : string) : result Z :=
  match s with
  | EmptyString => Raise ValueError
  | _ => match digits_value 0 s with
         | Some n =>
             if MAX_STR_DIGITS <? Z.of_nat (String.length s)
             then Raise ValueError else Ok n
         | None => Raise ValueError
         end
  end.

(** [str.isdigit] of one character below 256: the ASCII digits and the
    superscripts one, two, three (which [int] does not accept). *)
Definition isdigit_char (c : ascii) : bool :=
  let n := Z.of_nat (nat_of_ascii c) in
  isdecimal c || (n =? 178) || (n =? 179) || (n =? 185).

Fixpoint all_chars (p : ascii -> bool) (s : string) : bool :=
  match s with
  | String c s' => p c && all_chars p s'
  | EmptyString => true
  end.

(** [s.isdigit()] *)
Definition isdigit (s : string) : bool :=
  match s with
  | EmptyString => false
  | _ => all_chars isdigit_char s
  end.

(** [s.split(sep)] for a one-character separator *)
Fixpoint split (sep : ascii) (s : string) : list string :=
  match s with
  | EmptyString => [EmptyString]
  | String c s' =>
      if Ascii.eqb c sep then EmptyString :: split sep s'
      else match split sep s' with
           | piece :: pieces => String c piece :: pieces
           | [] => [String c EmptyString]
           end
  end.

End Py.

#[export] Instance result_ret : MRet Py.result := @Py.Ok.
#[export] Instance result_bind : MBind Py.result :=
  fun A B k r => Py.bind r k.
#[export] Instance result_fmap : FMap Py.result :=
  fun A B f r => Py.bind r (fun a => Py.Ok (f a)).

(** ** Python runtime: the fragment of [re] the sources use

    Both log-line patterns are a sequence of greedy repetitions of a one
    character class, plus groups and [$].  The matcher below is the
    backtracking search of [re] on that fragment: a repetition first takes
    the longest run and gives characters back one at a time until the rest
    of the pattern matches. *)

Module Re.

Inductive CharSet : Type :=
| Digit                       (* \d *)
| Space                       (* \s *)
| Dot                         (* .  (no DOTALL) *)
| Lit (c : ascii)             (* a literal character *)
| Range (lo hi : ascii)       (* [lo-hi] *)
| OneOf (cs : string)         (* [abc] *)
| NoneOf (cs : string).       (* [^abc] *)

Fixpoint mem_char (c : ascii) (cs : string) : bool :=
  match cs with
  | String d cs' => Ascii.eqb c d || mem_char c cs'
  | EmptyString => false
  end.

Definition in_set (cs : CharSet) (c : ascii) : bool :=
  match cs with
  | Digit => Py.isdecimal c
  | Space => Py.isspace c
  | Dot => negb (Ascii.eqb c "010")
  | Lit d => Ascii.eqb c d
  | Range lo hi =>
      (nat_of_ascii lo <=? nat_of_ascii c)%nat
      && (nat_of_ascii c <=? nat_of_ascii hi)%nat
  | OneOf s => mem_char c s
  | NoneOf s => negb (mem_char c s)
  end.

Inductive Tok : Type :=
| Rep (cs : CharSet) (lo : nat) (hi : option nat)  (* cs{lo,hi}, greedy *)
| Open (g : string)                                 (* "(" of group g *)
| Close (g : string)                                (* ")" of group g *)
| Eol.                                              (* $ *)

Definition one (cs : CharSet) : Tok := Rep cs 1 (Some 1%nat).
Definition exactly (n : nat) (cs : CharSet) : Tok := Rep cs n (Some n).
Definition plus (cs : CharSet) : Tok := Rep cs 1 None.
Definition star (cs : CharSet) : Tok := Rep cs 0 None.

(** length of the longest prefix of [s] inside [cs], at most [hi] long *)
Fixpoint run (cs : CharSet) (hi : option nat) (s : string) : nat :=
  match hi with
  | Some O => O
  | _ =>
      match s with
      | String c s' =>
          if in_set cs c then S (run cs (Nat.pred <$> hi) s') else O
      | EmptyString => O
      end
  end.

Fixpoint drop (n : nat) (s : string) : string :=
  match n, s with
  | S n', String _ s' => drop n' s'
  | _, _ => s
  end.

Fixpoint take (n : nat) (s : string) : string :=
  match n, s with
  | S n', String c s' => String c (take n' s')
  | _, _ => EmptyString
  end.

(** try [k], [k-1], ... down to [lo]; the first success wins *)
Fixpoint give_back {R} (attempt : nat -> option R) (lo k : nat) : option R :=
  if (k <? lo)%nat then None
  else match attempt k with
       | Some r => Some r
       | None => match k with
                 | S k' => give_back attempt lo k'
                 | O => None
                 end
       end.

(** a match in progress: groups still open with their start offset, and
    the groups already closed with their text *)
Record St : Type := mkSt {
  opened : list (string * nat);
  closed : gmap string string
}.

Definition lookup_open (g : string) (o : list (string * nat)) : option nat :=
  snd <$> List.find (fun p => String.eqb (fst p) g) o.

(** [whole] is the subject string, [pos] the offset reached in it and
    [rest] what is left of it from [pos] on. *)
Fixpoint run_toks (whole : string) (ts : list Tok) (rest : string)
    (pos : nat) (st : St) : option (gmap string string) :=
  match ts with
  | [] => Some (closed st)
  | Rep cs lo hi :: ts' =>
      give_back
        (fun k => run_toks whole ts' (drop k rest) (pos + k)%nat st)
        lo (run cs hi rest)
  | Open g :: ts' =>
      run_toks whole ts' rest pos (mkSt ((g, pos) :: opened st) (closed st))
  | Close g :: ts' =>
      match lookup_open g (opened st) with
      | Some start =>
          run_toks whole ts' rest pos
            (mkSt (opened st)
               (<[g := take (pos - start) (drop start whole)]> (closed st)))
      | None => None
      end
  | Eol :: ts' =>
      match rest with
      | EmptyString | String "010" EmptyString => run_toks whole ts' rest pos st
      | _ => None
      end
  end.

(** [pattern.match(s).groupdict()], [None] when there is no match at the
    start of [s] *)
Definition match_ (pattern : list Tok) (s : string)
  : option (gmap string string) :=
  run_toks s pattern s 0%nat (mkSt [] ∅).

End Re.

(** ** [datetime]: what the parser asks of it *)

Module Datetime.

Record t : Type := mk {
  year : Z; month : Z; day : Z;
  hour : Z; minute : Z; second : Z; microsecond : Z
}.

Definition is_leap (y : Z) : bool :=
  ((y mod 4 =? 0) && negb (y mod 100 =? 0)) || (y mod 400 =? 0).

Definition days_in_month (y m : Z) : Z :=
  if m =? 2 then (if is_leap y then 29 else 28)
  else if (m =? 4) || (m =? 6) || (m =? 9) || (m =? 11) then 30
  else 31.

Definition between (lo x hi : Z) : bool := (lo <=? x) && (x <=? hi).

(** the class constructor [datetime(y, mo, d, h, mi, s, us)] *)
Definition make (y mo d h mi s us : Z) : Py.result t :=
  if between 1 y 9999 && between 1 mo 12
     && between 1 d (days_in_month y mo)
     && between 0 h 23 && between 0 mi 59 && between 0 s 59
     && between 0 us 999999
  then Py.Ok (mk y mo d h mi s us)
  else Py.Raise Py.ValueError.

(** What the name [datetime] is bound to in a source file:
    [import datetime] binds the module, [from datetime import datetime]
    the class. *)
Inductive Binding : Type := TheModule | TheClass.

(** [datetime.now()]: the module has no attribute [now]. *)
Definition now (b : Binding) (clock : t) : Py.result t :=
  match b with
  | TheModule => Py.Raise Py.AttributeError
  | TheClass => Py.Ok clock
  end.

(** [datetime(...)]: a module is not callable. *)
Definition call (b : Binding) (y mo d h mi s us : Z) : Py.result t :=
  match b with
  | TheModule => Py.Raise Py.TypeError
  | TheClass => make y mo d h mi s us
  end.

End Datetime.

(** * Adayo_Mega_TestTool.py *)

(** ** Log records *)

Inductive LogLevel : Type :=
| FATAL | ERROR | WARN | INFO | DEBUG | VERBOSE | UNKNOWN.

(** the [Enum] member's [.value] *)
Definition value (l : LogLevel) : string :=
  match l with
  | FATAL => "F" | ERROR => "E" | WARN => "W" | INFO => "I"
  | DEBUG => "D" | VERBOSE => "V" | UNKNOWN => "U"
  end.

(** definition order of the members, as [for l in LogLevel] visits them *)
Definition LogLevel_members : list LogLevel :=
  [FATAL; ERROR; WARN; INFO; DEBUG; VERBOSE; UNKNOWN].

#[export] Instance LogLevel_eq_dec : EqDecision LogLevel.
Proof. solve_decision. Defined.

(** [LogLevel(v)]: the member whose value is [v] *)
Definition LogLevel_of_value (v : string) : Py.result LogLevel :=
  match List.find (fun l => String.eqb (value l) v) LogLevel_members with
  | Some l => Py.Ok l
  | None => Py.Raise Py.ValueError
  end.

Record LogEntry : Type := mkLogEntry {
  timestamp : Datetime.t;
  level : LogLevel;
  pid : Z;
  tid : Z;
  tag : string;
  message : string;
  raw_line : string
}.

(** [adb logcat -v threadtime] *)
Definition LOGCAT_REGEX : list Re.Tok :=
  [ Re.Open "month"; Re.exactly 2 Re.Digit; Re.Close "month";
    Re.one (Re.Lit "-");
    Re.Open "day"; Re.exactly 2 Re.Digit; Re.Close "day";
    Re.plus Re.Space;
    Re.Open "hour"; Re.exactly 2 Re.Digit; Re.Close "hour";
    Re.one (Re.Lit ":");
    Re.Open "minute"; Re.exactly 2 Re.Digit; Re.Close "minute";
    Re.one (Re.Lit ":");
    Re.Open "second"; Re.exactly 2 Re.Digit; Re.Close "second";
    Re.one (Re.Lit ".");
    Re.Open "millisecond"; Re.exactly 3 Re.Digit; Re.Close "millisecond";
    Re.plus Re.Space;
    Re.Open "pid"; Re.plus Re.Digit; Re.Close "pid";
    Re.plus Re.Space;
    Re.Open "tid"; Re.plus Re.Digit; Re.Close "tid";
    Re.plus Re.Space;
    Re.Open "level"; Re.one (Re.Range "A" "Z"); Re.Close "level";
    Re.plus Re.Space;
    Re.Open "tag"; Re.star (Re.NoneOf ":"); Re.Close "tag";
    Re.one (Re.Lit ":"); Re.plus Re.Space;
    Re.Open "message"; Re.star Re.Dot; Re.Close "message";
    Re.Eol ].

Definition MAX_LIVE_LOG_ROWS : Z := 5000.

(** [data[k]] on the group dictionary *)
Definition getitem (data : gmap string string) (k : string)
  : Py.result string :=
  match data !! k with
  | Some v => Py.Ok v
  | None => Py.Raise Py.KeyError
  end.

(** [LogLevel(level_char) if level_char in [l.value for l in LogLevel]
     else LogLevel.UNKNOWN] *)
Definition level_of_char (level_char : string) : Py.result LogLevel :=
  if existsb (String.eqb level_char) (value <$> LogLevel_members)
  then LogLevel_of_value level_char
  else Py.Ok UNKNOWN.

Section Parser.

(** the binding of the name [datetime] in the file, and the wall clock *)
Variable datetime : Datetime.Binding.
Variable clock : Datetime.t.

(** the [try] block of [_parse_log_line] *)
Definition parse_fields (line : string) (data : gmap string string)
  : Py.result (option LogEntry) :=
  now ← Datetime.now datetime clock;
  month ← getitem data "month" ≫= Py.int;
  day ← getitem data "day" ≫= Py.int;
  hour ← getitem data "hour" ≫= Py.int;
  minute ← getitem data "minute" ≫= Py.int;
  second ← getitem data "second" ≫= Py.int;
  millisecond ← getitem data "millisecond" ≫= Py.int;
  log_datetime ← Datetime.call datetime (Datetime.year now) month day
                   hour minute second (millisecond * 1000);
  level_char ← getitem data "level";
  level ← level_of_char level_char;
  pid ← getitem data "pid" ≫= Py.int;
  tid ← getitem data "tid" ≫= Py.int;
  tag ← getitem data "tag";
  message ← getitem data "message";
  mret (Some (mkLogEntry log_datetime level pid tid (Py.strip tag)
                (Py.strip message) (Py.strip line))).

(** [LogcatMonitorWorker._parse_log_line] *)
Definition parse_log_line_with (line : string)
  : Py.result (option LogEntry) :=
  match Re.match_ LOGCAT_REGEX line with
  | Some data =>
      Py.try_except (parse_fields line data) (fun _ => Py.Ok None)
  | None => Py.Ok None
  end.

End Parser.

(** line 3 of the file: [import datetime] *)
Definition datetime_in_file : Datetime.Binding := Datetime.TheModule.

Definition _parse_log_line (clock : Datetime.t) (line : string)
  : Py.result (option LogEntry) :=
  parse_log_line_with datetime_in_file clock line.

(** ** [LogcatMonitorWorker]: life cycle of the producer process *)

(** a [subprocess.Popen] object, by the command that launched it *)
Record Popen : Type := mkPopen { args : list string }.

(** what the worker sends out: Qt signals and calls on the process *)
Inductive Emitted : Type :=
| new_log_line_signal (entry : LogEntry)
| status_signal (text : string)
| proc_terminate | proc_wait (timeout : Z) | proc_kill.

Record LogcatMonitorWorker : Type := mkWorker {
  serial : string;
  _running : bool;
  _adb_process : option Popen;
  adb_path : string;
  logcat_command : list string;
  emitted : list Emitted            (* oldest first *)
}.

(** [LogcatMonitorWorker.__init__] *)
Definition LogcatMonitorWorker_init (serial : string) : LogcatMonitorWorker :=
  mkWorker serial false None "adb" ["logcat"; "-v"; "threadtime"] [].

Definition emit (x : Emitted) (w : LogcatMonitorWorker) : LogcatMonitorWorker :=
  mkWorker (serial w) (_running w) (_adb_process w) (adb_path w)
    (logcat_command w) (emitted w ++ [x]).

Definition set_running (b : bool) (w : LogcatMonitorWorker) : LogcatMonitorWorker :=
  mkWorker (serial w) b (_adb_process w) (adb_path w) (logcat_command w)
    (emitted w).

Definition set_adb_process (p : option Popen) (w : LogcatMonitorWorker)
  : LogcatMonitorWorker :=
  mkWorker (serial w) (_running w) p (adb_path w) (logcat_command w)
    (emitted w).

(** How the producer answers the calls of one [stop_monitor]. *)
Record ProcessAnswers : Type := mkAnswers {
  on_terminate : Py.result unit;
  on_wait3 : Py.result unit;     (* wait(timeout=3) *)
  on_kill : Py.result unit;
  on_wait1 : Py.result unit      (* wait(timeout=1) *)
}.

(** [terminate(); wait(timeout=3)], with the calls actually made *)
Definition graceful (a : ProcessAnswers) (w : LogcatMonitorWorker)
  : LogcatMonitorWorker * Py.result unit :=
  let w := emit proc_terminate w in
  match on_terminate a with
  | Py.Ok _ => (emit (proc_wait 3) w, on_wait3 a)
  | Py.Raise e => (w, Py.Raise e)
  end.

(** [try: kill(); wait(timeout=1) / except Exception: pass] *)
Definition forced (a : ProcessAnswers) (w : LogcatMonitorWorker)
  : LogcatMonitorWorker :=
  let w := emit proc_kill w in
  match on_kill a with
  | Py.Ok _ => emit (proc_wait 1) w
  | Py.Raise _ => w
  end.

(** [LogcatMonitorWorker.stop_monitor] *)
Definition stop_monitor (a : ProcessAnswers) (w : LogcatMonitorWorker)
  : LogcatMonitorWorker :=
  if negb (_running w) then w
  else
    let w := set_running false w in
    match _adb_process w with
    | Some _ =>
        let w := emit (status_signal "正在停止 Logcat 进程...") w in
        let '(w, r) := graceful a w in
        let w := match r with
                 | Py.Ok _ => w
                 | Py.Raise Py.TimeoutExpired => forced a w
                 | Py.Raise _ => w
                 end in
        let w := set_adb_process None w in
        emit (status_signal "Logcat 进程已清理。") w
    | None => w
    end.

(** What the read loop meets, in order: a line handed over by [readline],
    a failing read, or the UI thread calling [stop_monitor] on the worker
    object between two reads.  The end of the list is [readline]
    returning the empty string: the producer has closed its output. *)
Inductive StreamEvent : Type :=
| Line (text : string)
| ReadError (e : Py.Exc)
| UiStop (a : ProcessAnswers).

Section Worker.

Variable clock : Datetime.t.

(** [str(e)], the text of an exception, as an f-string interpolates it *)
Variable str_exc : Py.Exc -> string.

(** [for line in iter(self._adb_process.stdout.readline, ''): ...] *)
Fixpoint read_loop (events : list StreamEvent) (w : LogcatMonitorWorker)
  : LogcatMonitorWorker * Py.result unit :=
  match events with
  | [] => (w, Py.Ok tt)
  | UiStop a :: events' => read_loop events' (stop_monitor a w)
  | ReadError e :: _ => (w, Py.Raise e)
  | Line line :: events' =>
      if negb (_running w) then (w, Py.Ok tt)
      else
        match _parse_log_line clock line with
        | Py.Ok (Some parsed_entry) =>
            read_loop events' (emit (new_log_line_signal parsed_entry) w)
        | Py.Ok None => read_loop events' w
        | Py.Raise e => (w, Py.Raise e)
        end
  end.

(** [LogcatMonitorWorker.start_monitor].  [popen] is the outcome of
    [subprocess.Popen]; [final] answers the [stop_monitor] of the
    [finally] block.  The best-effort [logcat -c] leaves the worker
    untouched whatever its outcome. *)
Definition start_monitor (popen : Py.result unit)
    (events : list StreamEvent) (final : ProcessAnswers)
    (w : LogcatMonitorWorker) : LogcatMonitorWorker :=
  if _running w || String.eqb (serial w) "" then w
  else
    let w := set_running true w in
    let w := emit (status_signal "正在启动实时 Logcat...") w in
    let command := ([adb_path w; "-s"; serial w] ++ logcat_command w)%list in
    let w := emit (status_signal
                     ("执行命令: " +:+ String.concat " " command)) w in
    let '(w, r) :=
      match popen with
      | Py.Ok _ =>
          let w := set_adb_process (Some (mkPopen command)) w in
          let w := emit (status_signal
                           "实时 Logcat 启动成功，开始接收数据。") w in
          read_loop events w
      | Py.Raise e => (w, Py.Raise e)
      end in
    let w := match r with
             | Py.Ok _ => w
             | Py.Raise Py.FileNotFoundError =>
                 emit (status_signal "ADB 工具未找到。请检查 PATH 配置。") w
             | Py.Raise e =>
                 if _running w
                 then emit (status_signal
                              ("Logcat 监控启动失败: " +:+ str_exc e)) w
                 else w
             end in
    (* finally *)
    let w := set_running false w in
    stop_monitor final w.

End Worker.

(** ** [AdayoMegaTool]: filter, bounded live view, counters *)

Inductive Color : Type :=
| White | Red | Orange | Blue | DarkGreen | Gray | Black.

(** one table row: the six cells show the fields of [shown], every cell
    with the same colours and weight *)
Record Row : Type := mkRow {
  shown : LogEntry;
  foreground : Color;
  background : Color;
  bold : bool
}.

Definition color_map (l : LogLevel) : Color :=
  match l with
  | FATAL => White | ERROR => Red | WARN => Orange | INFO => Blue
  | DEBUG => DarkGreen | VERBOSE => Gray | UNKNOWN => Black
  end.

Definition row_of (entry : LogEntry) : Row :=
  let fatal := bool_decide (level entry = FATAL) in
  mkRow entry (color_map (level entry)) (if fatal then Red else White) fatal.

(** [QTableWidget]: the rows, top first *)
Definition rowCount (t : list Row) : Z := Z.of_nat (length t).

Definition removeRow (i : Z) (t : list Row) : list Row :=
  if (0 <=? i) && (i <? rowCount t)
  then take (Z.to_nat i) t ++ drop (S (Z.to_nat i)) t
  else t.

(** [insertRow(i)] followed by [setItem(i, col, ...)] for every column *)
Definition insertRow (i : Z) (r : Row) (t : list Row) : list Row :=
  if (0 <=? i) && (i <=? rowCount t)
  then take (Z.to_nat i) t ++ r :: drop (Z.to_nat i) t
  else t.

(** [QThread], as far as the tool looks at it *)
Record QThread : Type := mkQThread { isRunning : bool }.

Section Tool.

(** A compiled pattern and the truth value of [pattern.search(text)]. *)
Variable Pattern : Type.
Variable search : Pattern -> string -> bool.

(** the dictionary [logcat_filter_criteria]; its four keys are fixed *)
Record FilterCriteria : Type := mkCriteria {
  min_level : LogLevel;
  tag_regex : option Pattern;
  msg_regex : option Pattern;
  pid_tid : option (list Z)
}.

Record AdayoMegaTool : Type := mkTool {
  logcat_thread : option QThread;
  logcat_worker : option LogcatMonitorWorker;
  logcat_total_lines : Z;
  logcat_displayed_lines : Z;
  logcat_filter_criteria : FilterCriteria;
  logcat_table : option (list Row);  (* [None]: attribute not yet set *)
  live_count_label : Z * Z;          (* rows shown, lines received *)
  log_text_edit : list (string * string * string)  (* tag, message, level *)
}.

(** the filter installed by [AdayoMegaTool.__init__] *)
Definition default_criteria : FilterCriteria :=
  mkCriteria VERBOSE None None None.

(** [AdayoMegaTool.on_log_message]; the wall-clock prefix is left out *)
Definition on_log_message (tag message level : string) (self : AdayoMegaTool)
  : AdayoMegaTool :=
  mkTool (logcat_thread self) (logcat_worker self) (logcat_total_lines self)
    (logcat_displayed_lines self) (logcat_filter_criteria self)
    (logcat_table self) (live_count_label self)
    (log_text_edit self ++ [(tag, message, level)]).

(** [AdayoMegaTool._clear_live_logcat_view] *)
Definition _clear_live_logcat_view (self : AdayoMegaTool) : AdayoMegaTool :=
  match logcat_table self with
  | Some _ =>
      on_log_message "Logcat" "实时日志显示已清空。" "INFO"
        (mkTool (logcat_thread self) (logcat_worker self) 0 0
           (logcat_filter_criteria self) (Some []) (0, 0)
           (log_text_edit self))
  | None => self
  end.

(** [x in xs] on a list of integers *)
Definition int_in (x : Z) (xs : list Z) : bool :=
  existsb (Z.eqb x) xs.

(** [AdayoMegaTool._check_log_filter], on the criteria of [self] *)
Definition check_criteria (c : FilterCriteria) (entry : LogEntry) : bool :=
  if Py.str_lt (value (level entry)) (value (min_level c)) then false
  else if match tag_regex c with
          | Some p => negb (search p (tag entry))
          | None => false
          end then false
  else if match msg_regex c with
          | Some p => negb (search p (message entry))
          | None => false
          end then false
  else if match pid_tid c with
          | Some (_ :: _ as pid_tids) =>
              negb (int_in (pid entry) pid_tids)
              && negb (int_in (tid entry) pid_tids)
          | _ => false
          end then false
  else true.

Definition _check_log_filter (self : AdayoMegaTool) (entry : LogEntry)
  : bool :=
  check_criteria (logcat_filter_criteria self) entry.

(** the circular buffer of [_on_new_live_log]: drop the top row when the
    table is full, then insert the new row at the bottom *)
Definition live_view_push (t : list Row) (r : Row) : list Row :=
  let row_count := rowCount t in
  let '(t, row_count) :=
    if MAX_LIVE_LOG_ROWS <=? row_count
    then (removeRow 0 t, row_count - 1)
    else (t, row_count) in
  insertRow row_count r t.

(** [AdayoMegaTool._on_new_live_log] *)
Definition _on_new_live_log (self : AdayoMegaTool) (entry : LogEntry)
  : Py.result AdayoMegaTool :=
  let total := logcat_total_lines self + 1 in
  if negb (_check_log_filter self entry)
  then Py.Ok (mkTool (logcat_thread self) (logcat_worker self) total
                (logcat_displayed_lines self) (logcat_filter_criteria self)
                (logcat_table self) (live_count_label self)
                (log_text_edit self))
  else
    match logcat_table self with
    | Some t =>
        let t' := live_view_push t (row_of entry) in
        Py.Ok (mkTool (logcat_thread self) (logcat_worker self) total
                 (logcat_displayed_lines self + 1)
                 (logcat_filter_criteria self) (Some t')
                 (rowCount t', total) (log_text_edit self))
    | None => Py.Raise Py.AttributeError
    end.

(** the slot run once per entry of a stream *)
Fixpoint on_new_live_logs (self : AdayoMegaTool) (entries : list LogEntry)
  : Py.result AdayoMegaTool :=
  match entries with
  | [] => Py.Ok self
  | entry :: entries' =>
      self' ← _on_new_live_log self entry;
      on_new_live_logs self' entries'
  end.

(** how many records of a stream the filter check accepts *)
Definition accepted (c : FilterCriteria) (entries : list LogEntry) : nat :=
  length (List.filter (check_criteria c) entries).

End Tool.

Section ApplyFilter.

Variable Pattern : Type.
(** [re.compile(text, re.IGNORECASE)]; a malformed pattern raises
    [re.error] *)
Variable compile : string -> Py.result Pattern.
(** [str(e)], the text of an exception, as an f-string interpolates it *)
Variable str_exc : Py.Exc -> string.

(** [LogLevel[name]] *)
Definition LogLevel_by_name (name : string) : Py.result LogLevel :=
  if String.eqb name "FATAL" then Py.Ok FATAL
  else if String.eqb name "ERROR" then Py.Ok ERROR
  else if String.eqb name "WARN" then Py.Ok WARN
  else if String.eqb name "INFO" then Py.Ok INFO
  else if String.eqb name "DEBUG" then Py.Ok DEBUG
  else if String.eqb name "VERBOSE" then Py.Ok VERBOSE
  else if String.eqb name "UNKNOWN" then Py.Ok UNKNOWN
  else Py.Raise Py.KeyError.

Definition compile_or_none (text : string) : Py.result (option Pattern) :=
  match text with
  | EmptyString => Py.Ok None
  | _ => Some <$> compile text
  end.

(** [[int(p.strip()) for p in pid_text.split(',') if p.strip().isdigit()]] *)
Fixpoint pid_list (pieces : list string) : Py.result (list Z) :=
  match pieces with
  | [] => Py.Ok []
  | p :: pieces' =>
      if Py.isdigit (Py.strip p)
      then n ← Py.int (Py.strip p); ns ← pid_list pieces'; mret (n :: ns)
      else pid_list pieces'
  end.

Definition set_criteria (c : FilterCriteria Pattern)
    (self : AdayoMegaTool Pattern) : AdayoMegaTool Pattern :=
  mkTool Pattern (logcat_thread _ self) (logcat_worker _ self)
    (logcat_total_lines _ self) (logcat_displayed_lines _ self) c
    (logcat_table _ self) (live_count_label _ self) (log_text_edit _ self).

(** [AdayoMegaTool._apply_live_logcat_filter], from the texts of the four
    widgets.  The dictionary is updated key by key, so a failure leaves
    the keys already written in place. *)
Definition _apply_live_logcat_filter
    (level_combo tag_filter_edit message_filter_edit pid_filter_edit : string)
    (self : AdayoMegaTool Pattern) : AdayoMegaTool Pattern :=
  let c0 := logcat_filter_criteria _ self in
  let min_level_str := hd "" (Py.split " " level_combo) in
  match (if String.eqb min_level_str "ALL" then Py.Ok VERBOSE
         else LogLevel_by_name min_level_str) with
  | Py.Raise _ => self
  | Py.Ok lvl =>
      let c1 := mkCriteria _ lvl (tag_regex _ c0) (msg_regex _ c0)
                  (pid_tid _ c0) in
      match compile_or_none (Py.strip tag_filter_edit) with
      | Py.Raise e =>
          let self := set_criteria c1 self in
          match e with
          | Py.ReError =>
              on_log_message _ "Logcat" ("Regex 格式错误: " +:+ str_exc e)
                "ERROR" self
          | _ => self
          end
      | Py.Ok tr =>
          let c2 := mkCriteria _ lvl tr (msg_regex _ c0) (pid_tid _ c0) in
          match compile_or_none (Py.strip message_filter_edit) with
          | Py.Raise e =>
              let self := set_criteria c2 self in
              match e with
              | Py.ReError =>
                  on_log_message _ "Logcat"
                    ("Regex 格式错误: " +:+ str_exc e) "ERROR" self
              | _ => self
              end
          | Py.Ok mr =>
              let c3 := mkCriteria _ lvl tr mr (pid_tid _ c0) in
              let pid_text := Py.strip pid_filter_edit in
              match (match pid_text with
                     | EmptyString => Py.Ok None
                     | _ => Some <$> pid_list (Py.split "," pid_text)
                     end) with
              | Py.Raise _ => set_criteria c3 self
              | Py.Ok pt =>
                  on_log_message _ "Logcat"
                    "过滤器已更新，将应用于后续实时日志。" "SUCCESS"
                    (set_criteria (mkCriteria _ lvl tr mr pt) self)
              end
          end
      end
  end.

End ApplyFilter.

(** the member's [.name] *)
Definition LogLevel_name (l : LogLevel) : string :=
  match l with
  | FATAL => "FATAL" | ERROR => "ERROR" | WARN => "WARN" | INFO => "INFO"
  | DEBUG => "DEBUG" | VERBOSE => "VERBOSE" | UNKNOWN => "UNKNOWN"
  end.

(** the text of a level entry of [level_combo]:
    [f"{l.name} ({l.value})"] *)
Definition combo_text (l : LogLevel) : string :=
  LogLevel_name l +:+ " (" +:+ value l +:+ ")".

(** * ai_root_gain.py: the rotating archive writer of [LiveLogcatPro] *)

Module Recorder.

(** The files of the capture directory: a path maps to the strings
    written to that file, oldest first; the text of the file is their
    concatenation. *)
Definition read_text (fs : gmap string (list string)) (path : string)
  : string :=
  String.concat "" (default [] (fs !! path)).

(** [open(path, "w")]: create or truncate *)
Definition open_w (path : string) (fs : gmap string (list string))
  : gmap string (list string) :=
  <[path := []]> fs.

(** [f.write(line)] on the file open at [path] *)
Definition write (path line : string) (fs : gmap string (list string))
  : gmap string (list string) :=
  <[path := default [] (fs !! path) ++ [line]]> fs.

Record LiveLogcatPro : Type := mk {
  device_id : string;
  is_recording : bool;
  save_dir : string;
  current_file_path : string;
  max_file_size_mb : Z;
  rotation_index : Z
}.

(** [os.path.join(dir, name)] *)
Definition os_path_join (dir name : string) : string :=
  dir +:+ "/" +:+ name.

Definition part_path (self : LiveLogcatPro) (timestamp_base : string)
    (index : Z) : string :=
  os_path_join (save_dir self)
    ("logcat_" +:+ device_id self +:+ "_" +:+ timestamp_base +:+ "_part"
     +:+ pretty index +:+ ".txt").

(** [LiveLogcatPro._get_new_filepath]: the new path and the updated
    object *)
Definition _get_new_filepath (self : LiveLogcatPro) (timestamp_base : string)
  : string * LiveLogcatPro :=
  let self := mk (device_id self) (is_recording self) (save_dir self)
                (current_file_path self) (max_file_size_mb self)
                (rotation_index self + 1) in
  (part_path self timestamp_base (rotation_index self), self).

Definition set_current_file_path (path : string) (self : LiveLogcatPro)
  : LiveLogcatPro :=
  mk (device_id self) (is_recording self) (save_dir self) path
    (max_file_size_mb self) (rotation_index self).

Definition set_is_recording (b : bool) (self : LiveLogcatPro)
  : LiveLogcatPro :=
  mk (device_id self) b (save_dir self) (current_file_path self)
    (max_file_size_mb self) (rotation_index self).

(** What the loop meets: a line read from the producer, or the test of
    [while self.is_recording] finding the flag cleared by another thread
    ([LiveLogcatPro.stop]).  [Stop] stands where the loop sees the flag: a
    stop requested while [readline] blocks is seen at the test that
    follows the line read, so it stands after that line.  The end of the
    list is [readline] returning the empty string. *)
Inductive Event : Type :=
| Line (text : string)
| Stop.

Section Worker.

(** number of bytes the text layer puts in the file for a string
    (UTF-8, after the newline translation of the platform) *)
Variable encoded_size : string -> Z.

(** [f.tell()] after the writes so far *)
Definition tell (fs : gmap string (list string)) (f : string) : Z :=
  foldr Z.add 0 (encoded_size <$> default [] (fs !! f)).

(** the body of [while self.is_recording:], with writes that succeed *)
Fixpoint record_loop (timestamp_base : string) (events : list Event)
    (self : LiveLogcatPro) (f : string) (fs : gmap string (list string))
  : LiveLogcatPro * gmap string (list string) :=
  match events with
  | [] => (self, fs)
  | Stop :: events' =>
      record_loop timestamp_base events' (set_is_recording false self) f fs
  | Line line :: events' =>
      if negb (is_recording self) then (self, fs)
      else
        let fs := write f line fs in
        if max_file_size_mb self * 1024 * 1024 <? tell fs f
        then
          let '(path, self) := _get_new_filepath self timestamp_base in
          let self := set_current_file_path path self in
          record_loop timestamp_base events' self path (open_w path fs)
        else record_loop timestamp_base events' self f fs
  end.

(** [LiveLogcatPro._recorder_worker] *)
Definition _recorder_worker (timestamp_base : string) (events : list Event)
    (self : LiveLogcatPro) (fs : gmap string (list string))
  : LiveLogcatPro * gmap string (list string) :=
  let '(path, self) := _get_new_filepath self timestamp_base in
  let self := set_current_file_path path self in
  record_loop timestamp_base events self path (open_w path fs).

End Worker.

(** the lines that reach [f.write]: those read while [is_recording] holds *)
Fixpoint written (recording : bool) (events : list Event) : list string :=
  match events with
  | [] => []
  | Stop :: events' => written false events'
  | Line line :: events' =>
      if recording then line :: written recording events' else []
  end.

(** the segments [first+1 .. last] of a session, in part order *)
Definition segments (self : LiveLogcatPro) (timestamp_base : string)
    (fs : gmap string (list string)) (first last : Z) : list (list string) :=
  (fun i => default [] (fs !! part_path self timestamp_base i))
    <$> seqZ (first + 1) (last - first).

End Recorder.

(** * ai_root_gain.py: the foreground monitor of [LiveLogcatPro] *)

Module Console.

(** one call of [console.print]: the text, the [style] argument and the
    [markup] argument ([None] when the call leaves it to the console) *)
Record Print : Type := mkPrint {
  text : string;
  style : string;
  markup : option bool
}.

(** the [if]/[elif] chain that picks the colour of a line *)
Definition level_style (line : string) : string :=
  if Py.contains " E " line || Py.contains "FATAL" line then "bold red"
  else if Py.contains " W " line then "yellow"
  else if Py.contains " D " line then "blue"
  else if Py.contains " I " line then "green"
  else if Py.contains " V " line then "dim white"
  else "white".

(** [LiveLogcatPro.stream_console_log]: the body of the [while True:]
    loop, for a line that [readline] returned *)
Definition print_line (line : string) : Print :=
  let line := Py.strip line in
  let style := level_style line in
  if Py.contains "FATAL EXCEPTION" line
     || Py.contains " AndroidRuntime:" line && Py.contains " E " line
  then mkPrint line "bold white on red" None
  else if Py.contains "FATAL" line
       then mkPrint line "bold white on red" (Some false)
       else mkPrint line style (Some false).

End Console.

(** * ivi_toolbox.py: crash markers *)

Module Ivi.

(** ** [LogRecorder._log_worker]: the inline check on every raw line *)

Definition marker_hit (line : string) : bool :=
  Py.contains "FATAL EXCEPTION" line || Py.contains "ANR in" line.

(** the loop body, for a worker still recording: the line goes to the
    file and the marker branch does nothing ([pass]) *)
Definition log_worker_step (file : list string) (line : string)
  : list string :=
  let file := file ++ [line] in
  if marker_hit line then file else file.

(** ** [LogcatAnalyzer] *)

Record FilterConfig : Type := mkFilterConfig {
  cfg_level : string; cfg_tag : string;
  cfg_keyword : string; cfg_exclude : string
}.

(** the attribute [filter_config] of an analyzer; [None] while the
    attribute has not been set *)
Record LogcatAnalyzer : Type := mkAnalyzer {
  filter_config : option FilterConfig
}.

(** [LogcatAnalyzer.__init__]: [filter_config] is not among the
    attributes it sets *)
Definition LogcatAnalyzer_init : LogcatAnalyzer := mkAnalyzer None.

(** [self.filter_config] *)
Definition get_filter_config (self : LogcatAnalyzer)
  : Py.result FilterConfig :=
  match filter_config self with
  | Some config => Py.Ok config
  | None => Py.Raise Py.AttributeError
  end.

(** the truth value of a [str] *)
Definition truthy (s : string) : bool :=
  match s with
  | EmptyString => false
  | _ => true
  end.

(** [LogcatAnalyzer._build_filter_command] *)
Definition _build_filter_command (self : LogcatAnalyzer)
  : Py.result string :=
  config ← get_filter_config self;
  let cmd := "logcat -v threadtime" in
  let cmd :=
    if negb (String.eqb (cfg_level config) "V")
    then cmd +:+ " *:" +:+ cfg_level config else cmd in
  let cmd :=
    if truthy (cfg_tag config)
    then cmd +:+ " | grep '" +:+ cfg_tag config +:+ "'" else cmd in
  let cmd :=
    if truthy (cfg_keyword config)
    then cmd +:+ " | grep '" +:+ cfg_keyword config +:+ "'" else cmd in
  let cmd :=
    if truthy (cfg_exclude config)
    then cmd +:+ " | grep -v '" +:+ cfg_exclude config +:+ "'" else cmd in
  mret cmd.

(** the dictionary built by [_parse_log_line] *)
Record Parsed : Type := mkParsed {
  p_time : string; p_pid : string; p_tid : string;
  p_level : string; p_tag : string; p_message : string
}.

(** the pattern of [LogcatAnalyzer._parse_log_line]; the groups are
    numbered *)
Definition pattern : list Re.Tok :=
  [ Re.Open "1";
    Re.exactly 2 Re.Digit; Re.one (Re.Lit "-"); Re.exactly 2 Re.Digit;
    Re.plus Re.Space;
    Re.exactly 2 Re.Digit; Re.one (Re.Lit ":"); Re.exactly 2 Re.Digit;
    Re.one (Re.Lit ":"); Re.exactly 2 Re.Digit; Re.one (Re.Lit ".");
    Re.exactly 3 Re.Digit;
    Re.Close "1";
    Re.plus Re.Space;
    Re.Open "2"; Re.plus Re.Digit; Re.Close "2";
    Re.plus Re.Space;
    Re.Open "3"; Re.plus Re.Digit; Re.Close "3";
    Re.plus Re.Space;
    Re.Open "4"; Re.one (Re.OneOf "VDIWEF"); Re.Close "4";
    Re.plus Re.Space;
    Re.Open "5"; Re.plus (Re.NoneOf ":"); Re.Close "5";
    Re.one (Re.Lit ":"); Re.star Re.Space;
    Re.Open "6"; Re.star Re.Dot; Re.Close "6" ].

(** [LogcatAnalyzer._parse_log_line] *)
Definition _parse_log_line (self : LogcatAnalyzer) (line : string)
  : option Parsed :=
  m ← Re.match_ pattern line;
  g1 ← m !! "1"; g2 ← m !! "2"; g3 ← m !! "3";
  g4 ← m !! "4"; g5 ← m !! "5"; g6 ← m !! "6";
  Some (mkParsed g1 g2 g3 g4 (Py.strip g5) g6).

(** [LogcatAnalyzer._get_level_color] *)
Definition _get_level_color (self : LogcatAnalyzer) (level : string)
  : string :=
  if String.eqb level "V" then "dim white"
  else if String.eqb level "D" then "cyan"
  else if String.eqb level "I" then "green"
  else if String.eqb level "W" then "yellow"
  else if String.eqb level "E" then "red"
  else if String.eqb level "F" then "bold red"
  else "white".

Definition crash_keywords : list string :=
  ["FATAL EXCEPTION"; "ANR in"; "Native crash"; "SIGSEGV"; "SIGABRT"].

Definition is_crash (parsed : Parsed) : bool :=
  existsb (fun keyword => Py.contains keyword (p_message parsed))
    crash_keywords.

Definition CRASH_BADGE : string := "[bold red on white]🚨 CRASH[/] ".

(** [LogcatAnalyzer._format_log_line] *)
Definition _format_log_line (self : LogcatAnalyzer) (parsed : Parsed)
  : string :=
  let level_color := _get_level_color self (p_level parsed) in
  if is_crash parsed
  then CRASH_BADGE +:+ "[" +:+ level_color +:+ "]" +:+ p_level parsed
       +:+ "[/] [dim]" +:+ p_time parsed +:+ "[/] [cyan]" +:+ p_tag parsed
       +:+ "[/cyan]: [bold red]" +:+ p_message parsed +:+ "[/]"
  else "[" +:+ level_color +:+ "]" +:+ p_level parsed
       +:+ "[/] [dim]" +:+ p_time parsed +:+ "[/] [cyan]" +:+ p_tag parsed
       +:+ "[/cyan]: " +:+ p_message parsed.

(** the console and the two counters of [LogcatAnalyzer.start_monitoring] *)
Record Monitor : Type := mkMonitor {
  printed : list string;
  crash_count : Z;
  line_count : Z
}.

(** the body of [for line in process.stdout:] *)
Definition monitor_step (self : LogcatAnalyzer) (m : Monitor)
    (line : string) : Monitor :=
  let line := Py.strip line in
  match line with
  | EmptyString => m
  | _ =>
      match _parse_log_line self line with
      | Some parsed =>
          let formatted := _format_log_line self parsed in
          mkMonitor (printed m ++ [formatted])
            (if Py.contains "CRASH" formatted
             then crash_count m + 1 else crash_count m)
            (line_count m + 1)
      | None =>
          mkMonitor (printed m ++ ["[dim]" +:+ line +:+ "[/dim]"])
            (crash_count m) (line_count m)
      end
  end.

(** the filters named in the notice that [start_monitoring] prints *)
Definition filter_info (config : FilterConfig) : list string :=
  (if negb (String.eqb (cfg_level config) "V")
   then ["级别≥" +:+ cfg_level config] else [])
  ++ (if truthy (cfg_tag config) then ["TAG=" +:+ cfg_tag config] else [])
  ++ (if truthy (cfg_keyword config)
      then ["含'" +:+ cfg_keyword config +:+ "'"] else [])
  ++ (if truthy (cfg_exclude config)
      then ["排除'" +:+ cfg_exclude config +:+ "'"] else []).

Definition BANNER : string :=
  "[bold cyan]📡 Logcat 实时监控中...[/bold cyan]"
  +:+ String "010" "[dim]按 Ctrl+C 停止监控[/dim]".

(** [LogcatAnalyzer.start_monitoring] on a cleared console.  The filter
    is part of the command handed to the shell: [producer cmd] is what
    that command prints, up to the end of its output; [device_id] is
    empty when the driver has none.  The reads of [self.filter_config]
    come before the producer is launched, outside any [try].  The call
    that clears the buffer of the device is left out. *)
Definition start_monitoring (producer : string -> list string)
    (device_id : string) (self : LogcatAnalyzer) : Py.result Monitor :=
  let console := [BANNER] in
  config ← get_filter_config self;
  let console :=
    match filter_info config with
    | [] => console
    | info =>
        console ++ ["[yellow]当前过滤: " +:+ String.concat " | " info
                    +:+ "[/yellow]" +:+ String "010" ""]
    end in
  let prefix :=
    if truthy device_id then "adb -s " +:+ device_id +:+ " " else "adb " in
  filter_command ← _build_filter_command self;
  let cmd := prefix +:+ filter_command in
  mret (fold_left (monitor_step self) (producer cmd) (mkMonitor console 0 0)).

End Ivi.

(** * ivi_toolbox.py: [LogcatAdvanced] *)

Module Advanced.

(** [LogcatAdvanced.__init__]: the initial [filter_config] *)
Definition default_config : Ivi.FilterConfig :=
  Ivi.mkFilterConfig "V" "" "" "".

(** the truth value of a [str] *)
Definition truthy (s : string) : bool :=
  match s with
  | EmptyString => false
  | _ => true
  end.

(** [LogcatAdvanced._build_cmd] *)
Definition _build_cmd (filter_config : Ivi.FilterConfig) : string :=
  let cmd := "logcat -v threadtime" in
  let cmd :=
    if negb (String.eqb (Ivi.cfg_level filter_config) "V")
    then cmd +:+ " *:" +:+ Ivi.cfg_level filter_config else cmd in
  let cmd :=
    if truthy (Ivi.cfg_tag filter_config)
    then cmd +:+ " -s " +:+ Ivi.cfg_tag filter_config else cmd in
  let cmd :=
    if truthy (Ivi.cfg_keyword filter_config)
    then cmd +:+ " | grep -i '" +:+ Ivi.cfg_keyword filter_config +:+ "'"
    else cmd in
  let cmd :=
    if truthy (Ivi.cfg_exclude filter_config)
    then cmd +:+ " | grep -v '" +:+ Ivi.cfg_exclude filter_config +:+ "'"
    else cmd in
  cmd.

(** the counters and the snippets that the loop of [_analyze_session]
    builds; the loop also counts the tags, in a dictionary of its own *)
Record Tally : Type := mkTally {
  count_F : Z;
  count_E : Z;
  count_W : Z;
  crash_snippets : list string
}.

(** [s[:n]] *)
Fixpoint slice_to (n : nat) (s : string) : string :=
  match n, s with
  | S n', String c s' => String c (slice_to n' s')
  | _, _ => EmptyString
  end.

(** the body of [for line in logs:] *)
Definition tally_line (t : Tally) (line : string) : Tally :=
  let line := Py.strip line in
  let t :=
    if Py.contains " F " line || Py.contains "FATAL" line
    then mkTally (count_F t + 1) (count_E t) (count_W t) (crash_snippets t)
    else if Py.contains " E " line
    then mkTally (count_F t) (count_E t + 1) (count_W t) (crash_snippets t)
    else if Py.contains " W " line
    then mkTally (count_F t) (count_E t) (count_W t + 1) (crash_snippets t)
    else t in
  if Py.contains "FATAL EXCEPTION" line
  then mkTally (count_F t) (count_E t) (count_W t)
         (crash_snippets t ++ [slice_to 100 line +:+ "..."])
  else t.

Definition tally (logs : list string) : Tally :=
  fold_left tally_line logs (mkTally 0 0 0 []).

(** the colour of the summary row *)
Definition health_color (t : Tally) : string :=
  if 0 <? count_F t then "bold red"
  else if 50 <? count_E t then "yellow"
  else "green".

(** what [_analyze_session] reports.  For an empty capture it prints the
    notice that nothing was captured and returns ([None]); otherwise the
    report holds the number of lines, the counters with their colour and
    the snippets shown, five at most.  The duration, the rate and the
    table of tags are left out. *)
Definition _analyze_session (logs : list string)
  : option (Z * Tally * string * list string) :=
  let total_lines := Z.of_nat (length logs) in
  if total_lines =? 0 then None
  else
    let t := tally logs in
    Some (total_lines, t, health_color t, take 5 (crash_snippets t)).

End Advanced.

(** * Sample inputs and proof helpers *)

(** a running tool used as a concrete instance *)
Definition sample_worker : LogcatMonitorWorker :=
  mkWorker "0123456789ABCDEF" true
    (Some (mkPopen ["adb"; "-s"; "0123456789ABCDEF"; "logcat"; "-v";
                    "threadtime"]))
    "adb" ["logcat"; "-v"; "threadtime"] [].

Definition sample_entry (l : LogLevel) (n : Z) : LogEntry :=
  mkLogEntry (Datetime.mk 2025 1 7 12 34 56 789000) l 1234 n
    "MyTag" "Something failed"
    "01-07 12:34:56.789  1234  5678 E MyTag: Something failed".

Definition sample_tool (rows : list Row) : AdayoMegaTool unit :=
  mkTool unit (Some (mkQThread true)) (Some sample_worker) 7 3
    (mkCriteria unit WARN None None (Some [1234])) (Some rows)
    (Z.of_nat (length rows), 7) [].

(** 5001 WARN records, numbered by their [tid] *)
Definition burst_5001 : list LogEntry :=
  sample_entry WARN <$> seqZ 1 5001.

Definition empty_view : AdayoMegaTool unit :=
  mkTool unit None None 0 0 (default_criteria unit) (Some []) (0, 0) [].

Definition sample_clock : Datetime.t := Datetime.mk 2025 6 1 9 0 0 0.

(** a line with a non-numeric pid *)
Definition line_bad_pid : string :=
  "01-07 12:34:56.789  abcd  5678 E MyTag: Something failed".

(** the names closed by a list of tokens *)
Fixpoint closes (g : string) (ts : list Re.Tok) : bool :=
  match ts with
  | [] => false
  | Re.Close g' :: ts' => String.eqb g' g || closes g ts'
  | _ :: ts' => closes g ts'
  end.

(** a line whose level column holds a lower-case letter *)
Definition line_lowercase_level : string :=
  "01-07 12:34:56.789  1234  5678 x MyTag: Something failed".

(** a line whose level column holds an upper-case non-level letter *)
Definition line_level_Q : string :=
  "01-07 12:34:56.789  1234  5678 Q MyTag: Something failed".

Definition obedient : ProcessAnswers :=
  mkAnswers (Py.Ok tt) (Py.Ok tt) (Py.Ok tt) (Py.Ok tt).

Definition stubborn : ProcessAnswers :=
  mkAnswers (Py.Ok tt) (Py.Raise Py.TimeoutExpired) (Py.Ok tt) (Py.Ok tt).

Definition two_lines : list StreamEvent :=
  [ Line "01-07 12:34:56.789  1234  5678 E MyTag: Something failed";
    Line "01-07 12:34:56.790  1234  5678 I MyTag: bye" ].

(** a size function for small examples: every character stands for a
    block of 256 KiB *)
Definition block_size (s : string) : Z := 262144 * Z.of_nat (String.length s).

Definition eol : string := String "010" EmptyString.

Definition sample_recorder : Recorder.LiveLogcatPro :=
  Recorder.mk "0123456789ABCDEF" true "captured_logs" "N/A" 1 0.

Definition sample_session : list Recorder.Event :=
  [ Recorder.Line ("abc" +:+ eol); Recorder.Line ("de" +:+ eol);
    Recorder.Line ("f" +:+ eol); Recorder.Stop;
    Recorder.Line ("late" +:+ eol) ].

(** the analyzer as [LogcatAnalyzer()] builds it *)
Definition sample_analyzer : Ivi.LogcatAnalyzer := Ivi.LogcatAnalyzer_init.

(** the text of an exception in the examples *)
Definition sample_exc_text (e : Py.Exc) : string :=
  match e with
  | Py.FileNotFoundError => "[Errno 2] No such file or directory: 'adb'"
  | Py.OSError => "[Errno 13] Permission denied: 'adb'"
  | Py.ReError => "missing ), unterminated subpattern at position 0"
  | _ => "error"
  end.

(** a line the analyzer parses, with the marker in its tag and not in
    its message *)
Definition line_marker_in_tag : string :=
  "01-07 12:34:56.789  1234  5678 E FATAL EXCEPTION: main".

Definition parsed_marker_in_tag : Ivi.Parsed :=
  Ivi.mkParsed "01-07 12:34:56.789" "1234" "5678" "E" "FATAL EXCEPTION"
    "main".

(** an INFO line carrying the marker in its message *)
Definition line_crash_info : string :=
  "01-07 12:34:56.789  1234  5678 I AndroidRuntime: FATAL EXCEPTION: main".

Definition parsed_crash_info : Ivi.Parsed :=
  Ivi.mkParsed "01-07 12:34:56.789" "1234" "5678" "I" "AndroidRuntime"
    "FATAL EXCEPTION: main".

(** a raw line that carries the marker but not the logcat columns *)
Definition line_bare_marker : string := "FATAL EXCEPTION: main".

(** a Qt signal that carries a parsed entry *)
Definition is_entry_signal (x : Emitted) : bool :=
  match x with
  | new_log_line_signal _ => true
  | _ => false
  end.

(** a call made on the producer process *)
Definition is_proc_call (x : Emitted) : bool :=
  match x with
  | proc_terminate | proc_wait _ | proc_kill => true
  | _ => false
  end.

(** the levels that pass a filter made of [min_level] alone, read off the
    code points of the level letters (D < E < F < I < U < V < W) *)
Definition let_through (m : LogLevel) : list LogLevel :=
  match m with
  | DEBUG => [FATAL; ERROR; WARN; INFO; DEBUG; VERBOSE; UNKNOWN]
  | ERROR => [FATAL; ERROR; WARN; INFO; VERBOSE; UNKNOWN]
  | FATAL => [FATAL; WARN; INFO; VERBOSE; UNKNOWN]
  | INFO => [WARN; INFO; VERBOSE; UNKNOWN]
  | UNKNOWN => [WARN; VERBOSE; UNKNOWN]
  | VERBOSE => [WARN; VERBOSE]
  | WARN => [WARN]
  end.

(** a compiler of patterns that rejects the lone opening parenthesis *)
Definition toy_compile (text : string) : Py.result string :=
  if String.eqb text "(" then Py.Raise Py.ReError else Py.Ok text.

(** a table filled up to [MAX_LIVE_LOG_ROWS] *)
Definition full_table : list Row :=
  row_of <$> (sample_entry WARN <$> seqZ 1 5000).

(** a line whose message holds colons *)
Definition line_with_colons : string :=
  "01-07 12:34:56.789  1234  5678 E MyTag: a: b: c".

(** an INFO line whose message holds the word CRASH and no crash keyword *)
Definition line_crash_word : string :=
  "01-07 12:34:56.789  1234  5678 I Test: CRASH course booked".

Definition parsed_crash_word : Ivi.Parsed :=
  Ivi.mkParsed "01-07 12:34:56.789" "1234" "5678" "I" "Test"
    "CRASH course booked".

(** the one-character string SUPERSCRIPT TWO, code point 178 *)
Definition superscript_two : string := String "178"%char EmptyString.

(** the superscript digits two, three and one (code points 178, 179 and
    185): [str.isdigit] holds of them and [int] rejects them *)
Definition is_superscript_digit (c : ascii) : bool :=
  let n := Z.of_nat (nat_of_ascii c) in
  (n =? 178) || (n =? 179) || (n =? 185).

(** [s] holds a superscript digit *)
Definition has_superscript_digit (s : string) : bool :=
  negb (Py.all_chars (fun c => negb (is_superscript_digit c)) s).

(** the lines of a stream that are not blank *)
Definition not_blank (line : string) : bool :=
  match Py.strip line with
  | EmptyString => false
  | _ => true
  end.

(** a fatal line for [Advanced.tally_line] *)
Definition fatal_line (line : string) : bool :=
  Py.contains " F " (Py.strip line) || Py.contains "FATAL" (Py.strip line).

(** a capture of three lines: a crash, a warning, an error *)
Definition sample_capture : list string :=
  [ "01-07 12:34:56.789  1234  5678 E AndroidRuntime: FATAL EXCEPTION: main";
    "01-07 12:34:56.790  1234  5678 W MyTag: slow frame";
    "01-07 12:34:56.791  1234  5678 E MyTag: Something failed" ].

Ltac bind_inv H :=
  unfold mbind, result_bind, Py.bind in H;
  repeat match type of H with
         | match ?r with Py.Ok _ => _ | Py.Raise _ => _ end = _ =>
             let E := fresh "E" in
             destruct r eqn:E; [| discriminate H]
         end.

(** * Properties *)

(** ** The runtime fragment on small inputs *)

Example bind_ex : (n ← Py.int "12"; m ← Py.int "x"; mret (n + m)) = Py.Raise Py.ValueError.
Proof. reflexivity. Qed.

Example strip_ex : Py.strip "  MyTag " = "MyTag".
Proof. reflexivity. Qed.

Example contains_ex : Py.contains "FATAL EXCEPTION" "x FATAL EXCEPTION: main" = true.
Proof. reflexivity. Qed.

Example int_ex : Py.int "5678" = Py.Ok 5678.
Proof. reflexivity. Qed.

Example re_ex1 :
  Re.match_ [Re.Open "a"; Re.plus Re.Digit; Re.Close "a"; Re.plus Re.Space;
             Re.Open "b"; Re.star Re.Dot; Re.Close "b"; Re.Eol] "12  x y"
  = Some (<["b" := "x y"]> (<["a" := "12"]> ∅)).
Proof. vm_compute. reflexivity. Qed.

(** giving back: [\d+] must leave one digit for the trailing [\d] *)
Example re_ex2 :
  Re.match_ [Re.Open "a"; Re.plus Re.Digit; Re.Close "a"; Re.one Re.Digit;
             Re.Eol] "123"
  = Some (<["a" := "12"]> ∅).
Proof. vm_compute. reflexivity. Qed.

Example split_ex : Py.split "," "12, 34,,x" = ["12"; " 34"; ""; "x"].
Proof. reflexivity. Qed.

Example split_ex2 : Py.split " " "WARN (W)" = ["WARN"; "(W)"].
Proof. reflexivity. Qed.

(** ** The filter check *)

Section FilterFacts.

Context {Pattern : Type} (search : Pattern -> string -> bool).

(** with only [min_level] set, the check is the comparison of the two
    level letters *)
Lemma check_level_only (m : LogLevel) (entry : LogEntry) :
  check_criteria Pattern search (mkCriteria Pattern m None None None) entry
  = negb (Py.str_lt (value (level entry)) (value m)).
Proof.
  unfold check_criteria; simpl.
  destruct (Py.str_lt _ _); reflexivity.
Qed.

(** [min_level] enters the check through the letter comparison alone *)
Lemma check_criteria_level (c : FilterCriteria Pattern) (entry : LogEntry) :
  Py.str_lt (value (level entry)) (value (min_level _ c)) = true ->
  check_criteria Pattern search c entry = false.
Proof. unfold check_criteria. intros ->. reflexivity. Qed.

(** C5: with [min_level] WARN and the other three criteria absent, the
    check rejects every INFO record and accepts every WARN record. *)
Theorem warn_rejects_info_accepts_warn
    (ts : Datetime.t) (pid tid : Z) (tag message raw : string) :
  let c := mkCriteria Pattern WARN None None None in
  check_criteria Pattern search c
    (mkLogEntry ts INFO pid tid tag message raw) = false
  /\ check_criteria Pattern search c
       (mkLogEntry ts WARN pid tid tag message raw) = true.
Proof. split; reflexivity. Qed.

(** C1, on the code: raising [min_level] from VERBOSE to ERROR, all else
    equal, takes the number of accepted records of a one-record stream
    from 0 to 1. *)
Theorem tightening_verbose_to_error_accepts_more
    (ts : Datetime.t) (pid tid : Z) (tag message raw : string) :
  let stream := [mkLogEntry ts ERROR pid tid tag message raw] in
  accepted Pattern search (mkCriteria Pattern VERBOSE None None None) stream
  = 0%nat
  /\ accepted Pattern search (mkCriteria Pattern ERROR None None None) stream
     = 1%nat.
Proof. split; reflexivity. Qed.

End FilterFacts.

Section DefaultFilter.

Context {Pattern : Type} (search : Pattern -> string -> bool)
  (compile : string -> Py.result Pattern) (str_exc : Py.Exc -> string).

(** C9: under the criteria of [__init__], which are also the criteria
    that selecting "ALL" with empty text fields installs, the check is
    the comparison of the level letter with "V": true for VERBOSE and
    WARN, false for FATAL, ERROR, INFO, DEBUG and UNKNOWN. *)
Theorem default_filter_passes_only_verbose_and_warn
    (self : AdayoMegaTool Pattern) (entry : LogEntry) :
  let initial := set_criteria Pattern (default_criteria Pattern) self in
  let all := _apply_live_logcat_filter Pattern compile str_exc "ALL" "" "" "" self in
  logcat_filter_criteria _ all = default_criteria Pattern
  /\ _check_log_filter Pattern search initial entry
     = negb (Py.str_lt (value (level entry)) "V")
  /\ _check_log_filter Pattern search initial entry
     = match level entry with
       | VERBOSE | WARN => true
       | FATAL | ERROR | INFO | DEBUG | UNKNOWN => false
       end.
Proof.
  split; [reflexivity|]. split.
  - apply check_level_only.
  - transitivity (negb (Py.str_lt (value (level entry)) "V")).
    + apply check_level_only.
    + destruct (level entry); reflexivity.
Qed.

(** C10: when the table exists, clearing the live view leaves it empty
    and both counters at zero; the thread, the worker (with its process
    handle) and the filter criteria are as before. *)
Theorem clear_view_resets_view_and_counters
    (self : AdayoMegaTool Pattern) (rows : list Row) :
  logcat_table _ self = Some rows ->
  let self' := _clear_live_logcat_view Pattern self in
  logcat_table _ self' = Some []
  /\ logcat_total_lines _ self' = 0
  /\ logcat_displayed_lines _ self' = 0
  /\ logcat_worker _ self' = logcat_worker _ self
  /\ logcat_thread _ self' = logcat_thread _ self
  /\ logcat_filter_criteria _ self' = logcat_filter_criteria _ self.
Proof.
  intros Ht. unfold _clear_live_logcat_view. rewrite Ht. simpl. tauto.
Qed.

End DefaultFilter.

Lemma clear_view_resets_view_and_counters_witness :
  let self := sample_tool [row_of (sample_entry WARN 1)] in
  let self' := _clear_live_logcat_view unit self in
  logcat_table _ self' = Some []
  /\ logcat_total_lines _ self' = 0
  /\ logcat_displayed_lines _ self' = 0
  /\ logcat_worker _ self' = logcat_worker _ self
  /\ logcat_thread _ self' = logcat_thread _ self
  /\ logcat_filter_criteria _ self' = logcat_filter_criteria _ self.
Proof.
  exact (clear_view_resets_view_and_counters
           (sample_tool [row_of (sample_entry WARN 1)])
           [row_of (sample_entry WARN 1)] eq_refl).
Defined.

(** ** The bounded live view *)

Lemma MAX_LIVE_LOG_ROWS_pos : 0 < MAX_LIVE_LOG_ROWS.
Proof. reflexivity. Qed.

(** one push: the new row goes to the bottom, and a full table first
    loses its top row *)
Lemma live_view_push_spec (t : list Row) (r : Row) :
  rowCount t <= MAX_LIVE_LOG_ROWS ->
  live_view_push t r
  = drop (length t + 1 - Z.to_nat MAX_LIVE_LOG_ROWS) (t ++ [r]).
Proof.
  pose proof MAX_LIVE_LOG_ROWS_pos as Hpos.
  unfold live_view_push, rowCount, removeRow, insertRow, rowCount.
  generalize dependent MAX_LIVE_LOG_ROWS. intros cap Hpos Hle.
  destruct (Z.leb_spec cap (Z.of_nat (length t))) as [Hfull | Hroom].
  - assert (length t = Z.to_nat cap) as Hlen by lia.
    destruct t as [| top t']; [simpl in *; lia |].
    replace (length (top :: t') + 1 - Z.to_nat cap)%nat with 1%nat by lia.
    assert ((0 <=? 0) && (0 <? Z.of_nat (length (top :: t'))) = true) as ->.
    { apply andb_true_intro; split; [reflexivity | apply Z.ltb_lt; lia]. }
    change (take (Z.to_nat 0) (top :: t') ++ drop (S (Z.to_nat 0)) (top :: t'))
      with t'.
    assert ((0 <=? Z.of_nat (length (top :: t')) - 1)
            && (Z.of_nat (length (top :: t')) - 1 <=? Z.of_nat (length t'))
            = true) as ->.
    { apply andb_true_intro; split; [apply Z.leb_le | apply Z.leb_le];
        simpl length; lia. }
    replace (Z.to_nat (Z.of_nat (length (top :: t')) - 1)) with (length t')
      by (simpl length; lia).
    rewrite take_ge, drop_ge by lia. reflexivity.
  - replace (length t + 1 - Z.to_nat cap)%nat with 0%nat by lia.
    assert ((0 <=? Z.of_nat (length t))
            && (Z.of_nat (length t) <=? Z.of_nat (length t)) = true) as ->.
    { apply andb_true_intro; split; apply Z.leb_le; lia. }
    rewrite Nat2Z.id, take_ge, drop_ge by lia. reflexivity.
Qed.

Lemma live_view_push_length (t : list Row) (r : Row) :
  rowCount t <= MAX_LIVE_LOG_ROWS ->
  rowCount (live_view_push t r) <= MAX_LIVE_LOG_ROWS.
Proof.
  intros Hle. rewrite live_view_push_spec by exact Hle.
  pose proof MAX_LIVE_LOG_ROWS_pos.
  unfold rowCount in *. rewrite length_drop, length_app. simpl. lia.
Qed.

(** a sequence of pushes keeps the newest rows, oldest first *)
Lemma live_view_pushes (rs t : list Row) :
  rowCount t <= MAX_LIVE_LOG_ROWS ->
  foldl live_view_push t rs
  = drop (length t + length rs - Z.to_nat MAX_LIVE_LOG_ROWS) (t ++ rs).
Proof.
  revert t. induction rs as [| r rs IH]; intros t Hle.
  - simpl. rewrite app_nil_r.
    replace (length t + 0 - Z.to_nat MAX_LIVE_LOG_ROWS)%nat with 0%nat
      by (unfold rowCount in Hle; lia).
    reflexivity.
  - simpl foldl. rewrite IH by (apply live_view_push_length; exact Hle).
    rewrite live_view_push_spec by exact Hle.
    rewrite length_drop, length_app. simpl length.
    pose proof MAX_LIVE_LOG_ROWS_pos. unfold rowCount in Hle.
    set (cap := Z.to_nat MAX_LIVE_LOG_ROWS) in *.
    assert (length t <= cap)%nat as Hn by lia.
    replace (t ++ r :: rs) with ((t ++ [r]) ++ rs)
      by (rewrite <- (assoc_L (++)); reflexivity).
    destruct (decide (length t + 1 <= cap)%nat) as [Hroom | Hfull].
    + replace (length t + 1 - cap)%nat with 0%nat by lia. simpl drop.
      f_equal. lia.
    + replace (length t + 1 - cap)%nat with 1%nat by lia.
      rewrite <- (drop_app_le (t ++ [r]) rs 1)
        by (rewrite length_app; simpl; lia).
      rewrite drop_drop. f_equal. lia.
Qed.

Section LiveView.

Context {Pattern : Type} (search : Pattern -> string -> bool).

(** records that pass the filter are pushed one by one; nothing else of
    the view changes the table *)
Lemma on_new_live_logs_accepted (entries : list LogEntry) :
  forall (self : AdayoMegaTool Pattern) (t : list Row),
  logcat_table _ self = Some t ->
  forallb (_check_log_filter Pattern search self) entries = true ->
  exists self',
    on_new_live_logs Pattern search self entries = Py.Ok self'
    /\ logcat_table _ self'
       = Some (foldl live_view_push t (row_of <$> entries))
    /\ logcat_displayed_lines _ self'
       = logcat_displayed_lines _ self + Z.of_nat (length entries).
Proof.
  induction entries as [| entry entries IH]; intros self t Ht Hall.
  - exists self. simpl. repeat split; [exact Ht | lia].
  - simpl in Hall. apply andb_prop in Hall as [Hone Hrest].
    simpl on_new_live_logs. unfold _on_new_live_log at 1.
    rewrite Hone, Ht. simpl negb. cbv iota.
    match goal with
    | |- context [Py.Ok ?s ≫= _] => set (self1 := s)
    end.
    destruct (IH self1 (live_view_push t (row_of entry)) eq_refl Hrest)
      as (self' & Hrun & Htab & Hcount).
    exists self'. split; [exact Hrun |]. split; [exact Htab |].
    rewrite Hcount. subst self1. simpl. lia.
Qed.


End LiveView.


(** in that scenario record 1 is gone and records 2 to 5001 are shown:
    the records are told apart by their [tid] *)
Example burst_5001_survivors :
  tid <$> drop (length burst_5001 - Z.to_nat MAX_LIVE_LOG_ROWS) burst_5001
  = seqZ 2 5000.
Proof. vm_compute. reflexivity. Qed.

(** ** The line parser *)

(** the [try] block fails at its first statement: the file binds
    [datetime] to the module *)
Lemma parse_fields_in_file (clock : Datetime.t) (line : string)
    (data : gmap string string) :
  parse_fields datetime_in_file clock line data = Py.Raise Py.AttributeError.
Proof. reflexivity. Qed.

(** whatever the binding, no exception leaves the parser *)
Lemma parse_log_line_with_returns (b : Datetime.Binding) (clock : Datetime.t)
    (line : string) :
  Py.returns (parse_log_line_with b clock line).
Proof.
  unfold parse_log_line_with, Py.returns.
  destruct (Re.match_ LOGCAT_REGEX line) as [data |]; [| eauto].
  destruct (parse_fields b clock line data) as [r | e]; simpl; eauto.
Qed.

(** C3, as the code has it: parsing never raises, and a line that does
    not have the structure of the pattern yields no record at all. *)
Theorem parse_never_raises_and_mismatch_yields_none
    (clock : Datetime.t) (line : string) :
  Py.returns (_parse_log_line clock line)
  /\ (Re.match_ LOGCAT_REGEX line = None ->
      _parse_log_line clock line = Py.Ok None).
Proof.
  split; [apply parse_log_line_with_returns |].
  intros Hno. unfold _parse_log_line, parse_log_line_with.
  rewrite Hno. reflexivity.
Qed.

Lemma parse_never_raises_and_mismatch_yields_none_witness :
  Py.returns (_parse_log_line sample_clock line_bad_pid)
  /\ _parse_log_line sample_clock line_bad_pid = Py.Ok None.
Proof.
  destruct (parse_never_raises_and_mismatch_yields_none sample_clock
              line_bad_pid) as [Hret Hnone].
  split; [exact Hret | apply Hnone; vm_compute; reflexivity].
Defined.

(** C3 as stated fails: for the line with a non-numeric pid there is no
    record that keeps the raw line. *)
Lemma bad_pid_line_yields_no_record :
  Re.match_ LOGCAT_REGEX line_bad_pid = None
  /\ ~ exists entry,
       _parse_log_line sample_clock line_bad_pid = Py.Ok (Some entry)
       /\ level entry = UNKNOWN
       /\ raw_line entry = line_bad_pid.
Proof.
  split; [vm_compute; reflexivity |].
  intros (entry & Hparse & _). vm_compute in Hparse. discriminate.
Qed.

(** the worker drops such a line: nothing is emitted for it *)
Lemma unparsed_line_is_dropped (clock : Datetime.t) (line : string)
    (w : LogcatMonitorWorker) :
  _parse_log_line clock line = Py.Ok None ->
  read_loop clock [Line line] w = (w, Py.Ok tt).
Proof.
  intros Hnone. simpl. rewrite Hnone. destruct (_running w); reflexivity.
Qed.

(** ** The matcher on the level column *)

Lemma give_back_Some {R} (attempt : nat -> option R) (lo k : nat) (r : R) :
  Re.give_back attempt lo k = Some r ->
  exists j, (lo <= j <= k)%nat /\ attempt j = Some r.
Proof.
  induction k as [| k IH]; simpl.
  - destruct (Nat.ltb_spec 0 lo); [discriminate |].
    destruct (attempt 0%nat) eqn:Ha; [| destruct lo; discriminate].
    intros [= <-]. exists 0%nat. split; [lia | exact Ha].
  - destruct (Nat.ltb_spec (S k) lo); [discriminate |].
    destruct (attempt (S k)) eqn:Ha.
    + intros [= <-]. exists (S k). split; [lia | exact Ha].
    + intros Hk. destruct (IH Hk) as (j & Hj & Hr).
      exists j. split; [lia | exact Hr].
Qed.

Lemma run_at_most (cs : Re.CharSet) (n : nat) (s : string) :
  (Re.run cs (Some n) s <= n)%nat.
Proof.
  revert s. induction n as [| n IH]; intros s;
    [destruct s; simpl; lia |].
  destruct s as [| c s]; simpl; [lia |].
  destruct (Re.in_set cs c); [| lia].
  specialize (IH s). change (Nat.pred <$> Some (S n)) with (Some n). lia.
Qed.

Lemma run_positive (cs : Re.CharSet) (hi : option nat) (s : string) :
  (0 < Re.run cs hi s)%nat ->
  exists c s', s = String c s' /\ Re.in_set cs c = true.
Proof.
  destruct hi as [[| n] |], s as [| c s']; simpl; try lia;
    destruct (Re.in_set cs c) eqn:Hc; try lia; eauto.
Qed.

Lemma re_drop_drop (k pos : nat) (whole : string) :
  Re.drop k (Re.drop pos whole) = Re.drop (pos + k) whole.
Proof.
  revert whole. induction pos as [| pos IH]; intros whole; [reflexivity |].
  destruct whole as [| c whole]; simpl; [destruct k; reflexivity |].
  apply IH.
Qed.

(** the offset and the rest of the subject stay in step *)
Lemma run_toks_app (whole : string) (ts1 ts2 : list Re.Tok) :
  forall rest pos st m,
  Re.run_toks whole (ts1 ++ ts2) rest pos st = Some m ->
  rest = Re.drop pos whole ->
  exists rest' pos' st',
    rest' = Re.drop pos' whole
    /\ Re.run_toks whole ts2 rest' pos' st' = Some m.
Proof.
  induction ts1 as [| tok ts1 IH]; intros rest pos st m Hrun Hrest.
  - exists rest, pos, st. split; assumption.
  - destruct tok as [cs lo hi | g | g |]; simpl in Hrun.
    + apply give_back_Some in Hrun as (j & _ & Hj).
      apply IH in Hj; [exact Hj |].
      rewrite Hrest. apply re_drop_drop.
    + apply IH in Hrun; assumption.
    + destruct (Re.lookup_open g (Re.opened st)); [| discriminate].
      apply IH in Hrun; assumption.
    + destruct rest as [| c [| c' rest]]; try discriminate.
      * apply IH in Hrun; assumption.
      * destruct (Ascii.eqb_spec c "010"); subst; [| ].
        -- apply IH in Hrun; assumption.
        -- destruct c as [[] [] [] [] [] [] [] []]; try discriminate;
             congruence.
      * destruct c as [[] [] [] [] [] [] [] []]; discriminate.
Qed.

Lemma run_toks_keeps_group (whole g : string) (ts : list Re.Tok) :
  closes g ts = false ->
  forall rest pos st m,
  Re.run_toks whole ts rest pos st = Some m ->
  m !! g = Re.closed st !! g.
Proof.
  induction ts as [| tok ts IH]; intros Hg rest pos st m Hrun.
  - simpl in Hrun. congruence.
  - destruct tok as [cs lo hi | g' | g' |]; simpl in Hrun, Hg.
    + apply give_back_Some in Hrun as (j & _ & Hj).
      apply (IH Hg) in Hj. exact Hj.
    + apply (IH Hg) in Hrun. exact Hrun.
    + apply orb_false_elim in Hg as [Hne Hg].
      destruct (Re.lookup_open g' (Re.opened st)); [| discriminate].
      apply (IH Hg) in Hrun. rewrite Hrun. simpl.
      apply lookup_insert_ne. intros ->.
      rewrite String.eqb_refl in Hne. discriminate.
    + destruct rest as [| c [| c' rest]];
        try (apply (IH Hg) in Hrun; exact Hrun).
      * destruct c as [[] [] [] [] [] [] [] []]; try discriminate;
          apply (IH Hg) in Hrun; exact Hrun.
      * destruct c as [[] [] [] [] [] [] [] []]; discriminate.
Qed.

Lemma run_toks_group_one (whole g : string) (cs : Re.CharSet)
    (ts : list Re.Tok) (rest : string) (pos : nat) (st : Re.St)
    (m : gmap string string) :
  Re.run_toks whole (Re.Open g :: Re.one cs :: Re.Close g :: ts) rest pos st
  = Some m ->
  exists c rest',
    rest = String c rest'
    /\ Re.in_set cs c = true
    /\ Re.run_toks whole ts rest' (pos + 1)
         (Re.mkSt ((g, pos) :: Re.opened st)
            (<[g := Re.take (pos + 1 - pos) (Re.drop pos whole)]>
               (Re.closed st)))
       = Some m.
Proof.
  intros Hrun. cbn [Re.run_toks Re.one] in Hrun.
  apply give_back_Some in Hrun as (j & Hj & Hrun).
  pose proof (run_at_most cs 1 rest) as Hle.
  assert (j = 1%nat) as -> by lia.
  destruct (run_positive cs (Some 1%nat) rest) as (c & rest' & -> & Hc);
    [lia |].
  exists c, rest'. split; [reflexivity |]. split; [exact Hc |].
  unfold Re.lookup_open in Hrun. cbn [Re.opened List.find fst] in Hrun.
  rewrite String.eqb_refl in Hrun. exact Hrun.
Qed.

(** every line the pattern accepts has one letter of [A-Z] in its level
    column *)
Lemma level_group_is_uppercase (line : string) (data : gmap string string) :
  Re.match_ LOGCAT_REGEX line = Some data ->
  exists c,
    data !! "level" = Some (String c EmptyString)
    /\ Re.in_set (Re.Range "A" "Z") c = true.
Proof.
  unfold Re.match_. intros Hrun.
  rewrite <- (take_drop 32 LOGCAT_REGEX) in Hrun.
  apply run_toks_app in Hrun as (rest & pos & st & Hrest & Hrun);
    [| reflexivity].
  change (drop 32 LOGCAT_REGEX)
    with (Re.Open "level" :: Re.one (Re.Range "A" "Z") :: Re.Close "level"
          :: drop 35 LOGCAT_REGEX) in Hrun.
  apply run_toks_group_one in Hrun as (c & rest' & Hc & Hin & Hrun).
  apply run_toks_keeps_group with (g := "level") in Hrun; [| reflexivity].
  exists c. split; [| exact Hin].
  rewrite Hrun. cbn [Re.closed]. rewrite lookup_insert_eq.
  rewrite <- Hrest, Hc.
  replace (pos + 1 - pos)%nat with 1%nat by lia. reflexivity.
Qed.

(** the mapping of the level letter: any text other than the six level
    letters gives UNKNOWN *)
Lemma level_of_char_unknown (level_char : string) :
  existsb (String.eqb level_char) ["F"; "E"; "W"; "I"; "D"; "V"] = false ->
  level_of_char level_char = Py.Ok UNKNOWN.
Proof.
  intros Hno. simpl in Hno.
  repeat (apply orb_false_elim in Hno as [? Hno]).
  unfold level_of_char, LogLevel_of_value. simpl.
  repeat match goal with
         | H : String.eqb _ _ = false |- _ => rewrite H; clear H
         end.
  simpl. destruct (String.eqb_spec level_char "U") as [-> | Hne].
  - reflexivity.
  - reflexivity.
Qed.

(** a record, when the [try] block builds one, carries the mapped level
    and the stripped line *)
Lemma parse_fields_level (b : Datetime.Binding) (clock : Datetime.t)
    (line : string) (data : gmap string string) (entry : LogEntry) :
  parse_fields b clock line data = Py.Ok (Some entry) ->
  exists level_char,
    data !! "level" = Some level_char
    /\ level_of_char level_char = Py.Ok (level entry)
    /\ raw_line entry = Py.strip line.
Proof.
  unfold parse_fields. intros H. bind_inv H.
  injection H as <-. simpl.
  match goal with
  | Hg : getitem data "level" = Py.Ok ?lc, Hl : level_of_char ?lc = _ |- _ =>
      exists lc; unfold getitem in Hg;
      destruct (data !! "level") as [v |]; [| discriminate Hg];
      injection Hg as ->; auto
  end.
Qed.

Lemma level_letters_of_mem_char (c : ascii) :
  Re.mem_char c "FEWIDV" = false ->
  existsb (String.eqb (String c EmptyString)) ["F"; "E"; "W"; "I"; "D"; "V"]
  = false.
Proof.
  destruct c as [[] [] [] [] [] [] [] []]; intros H;
    solve [reflexivity | discriminate H].
Qed.

(** a record leaves [try: ... except Exception: pass] only if the body
    built it *)
Lemma try_except_Some {A} (body : Py.result (option A)) (x : A) :
  Py.try_except body (fun _ => Py.Ok None) = Py.Ok (Some x) ->
  body = Py.Ok (Some x).
Proof. destruct body as [r | e]; simpl; [auto | discriminate]. Qed.

Lemma parse_log_line_with_matched (b : Datetime.Binding)
    (clock : Datetime.t) (line : string) (data : gmap string string) :
  Re.match_ LOGCAT_REGEX line = Some data ->
  parse_log_line_with b clock line
  = Py.try_except (parse_fields b clock line data) (fun _ => Py.Ok None).
Proof. intros Hm. unfold parse_log_line_with. rewrite Hm. reflexivity. Qed.

Lemma parse_log_line_with_level (b : Datetime.Binding) (clock : Datetime.t)
    (line : string) (data : gmap string string) (entry : LogEntry) :
  Re.match_ LOGCAT_REGEX line = Some data ->
  parse_log_line_with b clock line = Py.Ok (Some entry) ->
  exists level_char,
    data !! "level" = Some level_char
    /\ level_of_char level_char = Py.Ok (level entry).
Proof.
  intros Hm Hparse.
  rewrite (parse_log_line_with_matched b clock line data Hm) in Hparse.
  apply try_except_Some in Hparse.
  apply parse_fields_level in Hparse as (lc & Hlc & Hlev & _).
  exists lc. split; assumption.
Qed.

(** a level character that is not an upper-case letter fails the line at
    the pattern: no record comes out of it, under either binding of
    [datetime] *)
Lemma lowercase_level_fails_the_line :
  Re.match_ LOGCAT_REGEX line_lowercase_level = None
  /\ _parse_log_line sample_clock line_lowercase_level = Py.Ok None
  /\ parse_log_line_with Datetime.TheClass sample_clock line_lowercase_level
     = Py.Ok None
  /\ ~ exists entry,
       _parse_log_line sample_clock line_lowercase_level
       = Py.Ok (Some entry)
       /\ level entry = UNKNOWN.
Proof.
  repeat split; try (vm_compute; reflexivity).
  intros (entry & Hparse & _). vm_compute in Hparse. discriminate.
Qed.

(** a line the pattern accepts has an upper-case letter as level
    character; when that letter is none of F, E, W, I, D, V the level
    computed for it is UNKNOWN, which is the level of any record built
    from the line *)
Lemma level_outside_known_letters_is_unknown
    (b : Datetime.Binding) (clock : Datetime.t) (line : string)
    (data : gmap string string) :
  Re.match_ LOGCAT_REGEX line = Some data ->
  exists c,
    data !! "level" = Some (String c EmptyString)
    /\ Re.in_set (Re.Range "A" "Z") c = true
    /\ (Re.mem_char c "FEWIDV" = false ->
        level_of_char (String c EmptyString) = Py.Ok UNKNOWN
        /\ forall entry,
           parse_log_line_with b clock line = Py.Ok (Some entry) ->
           level entry = UNKNOWN).
Proof.
  intros Hm. destruct (level_group_is_uppercase line data Hm)
    as (c & Hlevel & Hupper).
  exists c. split; [exact Hlevel |]. split; [exact Hupper |].
  intros Hnot.
  pose proof (level_of_char_unknown _ (level_letters_of_mem_char c Hnot))
    as Hunk.
  split; [exact Hunk |].
  intros entry Hparse.
  destruct (parse_log_line_with_level b clock line data entry Hm Hparse)
    as (lc & Hlc & Hlev).
  rewrite Hlevel in Hlc. injection Hlc as <-.
  rewrite Hunk in Hlev. injection Hlev as <-. reflexivity.
Qed.

(** under the class binding that line does give a record, of level
    UNKNOWN *)
Example level_Q_parses_to_unknown :
  (fun r => match r with
            | Py.Ok (Some entry) => Some (level entry, raw_line entry)
            | _ => None
            end)
    (parse_log_line_with Datetime.TheClass sample_clock line_level_Q)
  = Some (UNKNOWN, line_level_Q).
Proof. vm_compute. reflexivity. Qed.

(** C4, on the code: the line is well formed and its level character Q is
    outside the six level letters.  The pattern accepts it and the level
    computed for Q is UNKNOWN, yet no record comes out: [datetime] names
    the module in this file, so [datetime.now()] raises inside the [try]
    block and the handler returns [None]. *)
Theorem level_Q_line_yields_no_record (clock : Datetime.t) :
  (exists data,
     Re.match_ LOGCAT_REGEX line_level_Q = Some data
     /\ data !! "level" = Some "Q")
  /\ level_of_char "Q" = Py.Ok UNKNOWN
  /\ Datetime.now datetime_in_file clock = Py.Raise Py.AttributeError
  /\ _parse_log_line clock line_level_Q = Py.Ok None.
Proof.
  split.
  { eexists. split; vm_compute; reflexivity. }
  split; [reflexivity |]. split; [reflexivity |].
  unfold _parse_log_line, parse_log_line_with.
  destruct (Re.match_ LOGCAT_REGEX line_level_Q); reflexivity.
Qed.

(** ** The worker and the process handle *)

(** in this file every line parses to nothing, see
    [parse_fields_in_file] *)
Lemma parse_log_line_in_file (clock : Datetime.t) (line : string) :
  _parse_log_line clock line = Py.Ok None.
Proof.
  unfold _parse_log_line, parse_log_line_with.
  destruct (Re.match_ LOGCAT_REGEX line); reflexivity.
Qed.

(** a producer that talks and then closes its output, with nobody calling
    [stop_monitor]: the loop leaves the worker as it found it *)
Lemma read_loop_lines (clock : Datetime.t) (lines : list string)
    (w : LogcatMonitorWorker) :
  read_loop clock (Line <$> lines) w = (w, Py.Ok tt).
Proof.
  induction lines as [| line lines IH]; [reflexivity |].
  change (Line <$> line :: lines) with (Line line :: (Line <$> lines)).
  cbn [read_loop]. rewrite parse_log_line_in_file.
  destruct (_running w); simpl; [exact IH | reflexivity].
Qed.

(** [stop_monitor] on a worker that is not running does nothing *)
Lemma stop_monitor_not_running (a : ProcessAnswers)
    (w : LogcatMonitorWorker) :
  _running w = false -> stop_monitor a w = w.
Proof. unfold stop_monitor. intros ->. reflexivity. Qed.

(** called on a running worker, [stop_monitor] releases the handle
    whatever the producer answers: graceful exit, timeout followed by
    kill, or a failing call *)
Lemma stop_monitor_releases (a : ProcessAnswers) (w : LogcatMonitorWorker) :
  _running w = true ->
  _adb_process (stop_monitor a w) = None
  /\ _running (stop_monitor a w) = false.
Proof.
  unfold stop_monitor. intros ->. simpl.
  destruct (_adb_process w) as [p |] eqn:Hp; simpl.
  - unfold graceful, forced.
    destruct (on_terminate a) as [[] | e]; simpl.
    + destruct (on_wait3 a) as [[] | []]; simpl;
        try destruct (on_kill a); simpl; split; reflexivity.
    + destruct e; simpl; try destruct (on_kill a); simpl; split; reflexivity.
  - split; [exact Hp | reflexivity].
Qed.

(** the [finally] block clears [_running] first, so its [stop_monitor]
    returns at once: when the producer ends by itself the handle stays *)
Lemma producer_exit_keeps_handle (clock : Datetime.t)
    (str_exc : Py.Exc -> string) (serial : string)
    (lines : list string) (final : ProcessAnswers) :
  serial <> "" ->
  let w := start_monitor clock str_exc (Py.Ok tt) (Line <$> lines) final
             (LogcatMonitorWorker_init serial) in
  _adb_process w
  = Some (mkPopen ["adb"; "-s"; serial; "logcat"; "-v"; "threadtime"])
  /\ _running w = false
  /\ ~ In proc_terminate (emitted w).
Proof.
  intros Hserial. unfold start_monitor. simpl.
  destruct (String.eqb_spec serial "") as [-> | _]; [congruence |].
  rewrite read_loop_lines. simpl.
  repeat split. intros [H | [H | [H | []]]]; discriminate.
Qed.

(** C7, on the code: the producer prints two lines and exits on its own;
    when [start_monitor] returns the worker is stopped, no call was made
    on the process and [_adb_process] still holds the handle. *)
Theorem producer_exit_leaves_handle_set (str_exc : Py.Exc -> string) :
  let w := start_monitor sample_clock str_exc (Py.Ok tt) two_lines obedient
             (LogcatMonitorWorker_init "0123456789ABCDEF") in
  _running w = false
  /\ _adb_process w
     = Some (mkPopen ["adb"; "-s"; "0123456789ABCDEF"; "logcat"; "-v";
                      "threadtime"])
  /\ emitted w
     = [ status_signal "正在启动实时 Logcat...";
         status_signal
           "执行命令: adb -s 0123456789ABCDEF logcat -v threadtime";
         status_signal "实时 Logcat 启动成功，开始接收数据。" ].
Proof. vm_compute. repeat split; reflexivity. Qed.

(** the other two exit paths do release it: a stop request from the UI
    thread, answered gracefully or only after the kill *)
Example ui_stop_releases_handle :
  let run a := start_monitor sample_clock sample_exc_text (Py.Ok tt)
                 (two_lines ++ [UiStop a]) obedient
                 (LogcatMonitorWorker_init "0123456789ABCDEF") in
  _adb_process (run obedient) = None
  /\ _adb_process (run stubborn) = None
  /\ In proc_kill (emitted (run stubborn))
  /\ ~ In proc_kill (emitted (run obedient)).
Proof.
  vm_compute. repeat split; auto 20.
  intros H. repeat (destruct H as [H | H]; [discriminate H |]). exact H.
Qed.

(** ** The rotating archive writer *)

Lemma string_app_cons (c : ascii) (s t : string) :
  String c s +:+ t = String c (s +:+ t).
Proof. reflexivity. Qed.

Lemma string_app_nil_r (s : string) : s +:+ "" = s.
Proof.
  induction s as [| c s IH]; [reflexivity |].
  rewrite string_app_cons, IH. reflexivity.
Qed.

Lemma string_app_assoc (s t u : string) : (s +:+ t) +:+ u = s +:+ t +:+ u.
Proof.
  induction s as [| c s IH]; [reflexivity |].
  rewrite !string_app_cons, IH. reflexivity.
Qed.

Lemma string_length_app (s t : string) :
  String.length (s +:+ t) = (String.length s + String.length t)%nat.
Proof.
  induction s as [| c s IH]; [reflexivity |].
  rewrite string_app_cons. simpl. rewrite IH. reflexivity.
Qed.

Lemma string_app_inj_r (t s1 s2 : string) :
  s1 +:+ t = s2 +:+ t -> s1 = s2.
Proof.
  revert s2. induction s1 as [| c s1 IH]; intros [| d s2] H.
  - reflexivity.
  - apply (f_equal String.length) in H.
    rewrite !string_length_app in H. simpl in H. lia.
  - apply (f_equal String.length) in H.
    rewrite !string_length_app in H. simpl in H. lia.
  - rewrite !string_app_cons in H. injection H as -> H.
    f_equal. apply IH. exact H.
Qed.

Lemma sconcat_cons (x : string) (xs : list string) :
  String.concat "" (x :: xs) = x +:+ String.concat "" xs.
Proof.
  destruct xs as [| y ys]; simpl.
  - symmetry. apply string_app_nil_r.
  - reflexivity.
Qed.

Lemma sconcat_app (xs ys : list string) :
  String.concat "" (xs ++ ys) = String.concat "" xs +:+ String.concat "" ys.
Proof.
  induction xs as [| x xs IH]; [reflexivity |].
  rewrite <- app_comm_cons, !sconcat_cons, IH, string_app_assoc.
  reflexivity.
Qed.

(** the text of a sequence of files is the text of all their writes *)
Lemma sconcat_concat (xss : list (list string)) :
  String.concat "" (String.concat "" <$> xss)
  = String.concat "" (concat xss).
Proof.
  induction xss as [| xs xss IH]; [reflexivity |].
  rewrite fmap_cons, sconcat_cons, IH. simpl concat.
  rewrite sconcat_app. reflexivity.
Qed.

Section RecorderFacts.

Import Recorder.

Variable encoded_size : string -> Z.
Variable timestamp_base : string.

(** two parts of one session never share a file *)
Lemma part_path_inj (self : LiveLogcatPro) (i j : Z) :
  part_path self timestamp_base i = part_path self timestamp_base j -> i = j.
Proof.
  unfold part_path, os_path_join. intros H.
  repeat apply (inj (String.append _)) in H.
  apply string_app_inj_r in H.
  apply (inj pretty) in H. exact H.
Qed.

Lemma part_path_fields (s1 s2 : LiveLogcatPro) (i : Z) :
  save_dir s1 = save_dir s2 -> device_id s1 = device_id s2 ->
  part_path s1 timestamp_base i = part_path s2 timestamp_base i.
Proof. unfold part_path. intros -> ->. reflexivity. Qed.

Lemma segments_fields (s1 s2 : LiveLogcatPro)
    (fs : gmap string (list string)) (a b : Z) :
  save_dir s1 = save_dir s2 -> device_id s1 = device_id s2 ->
  segments s1 timestamp_base fs a b = segments s2 timestamp_base fs a b.
Proof.
  intros Hd Hi. unfold segments. apply list_fmap_ext. intros _ i _.
  rewrite (part_path_fields s1 s2 i Hd Hi). reflexivity.
Qed.

Lemma segments_snoc (self : LiveLogcatPro) (fs : gmap string (list string))
    (a b : Z) :
  a <= b ->
  segments self timestamp_base fs a (b + 1)
  = segments self timestamp_base fs a b
    ++ [default [] (fs !! part_path self timestamp_base (b + 1))].
Proof.
  intros Hab. unfold segments.
  replace (b + 1 - a) with ((b - a) + 1) by lia.
  rewrite seqZ_app by lia. rewrite fmap_app. f_equal.
  replace (a + 1 + (b - a)) with (b + 1) by lia. reflexivity.
Qed.

Lemma segments_ext (self : LiveLogcatPro)
    (fs1 fs2 : gmap string (list string)) (a b : Z) :
  (forall i, a < i <= b ->
     fs1 !! part_path self timestamp_base i
     = fs2 !! part_path self timestamp_base i) ->
  segments self timestamp_base fs1 a b = segments self timestamp_base fs2 a b.
Proof.
  intros Hext. unfold segments. apply list_fmap_ext. intros k i Hk.
  apply lookup_seqZ in Hk as [-> Hlt]. rewrite Hext by lia. reflexivity.
Qed.

(** a write lands at the end of the newest segment *)
Lemma write_segments (self : LiveLogcatPro) (fs : gmap string (list string))
    (a r : Z) (line : string) :
  a < r ->
  concat (segments self timestamp_base
            (write (part_path self timestamp_base r) line fs) a r)
  = concat (segments self timestamp_base fs a r) ++ [line].
Proof.
  intros Har.
  assert (exists r', r = r' + 1 /\ a <= r') as (r' & -> & Har')
    by (exists (r - 1); lia).
  rewrite !segments_snoc by lia. rewrite !concat_app.
  rewrite (segments_ext self
             (write (part_path self timestamp_base (r' + 1)) line fs)
             fs a r').
  - unfold write at 1. rewrite lookup_insert_eq. simpl.
    rewrite !app_nil_r, app_assoc. reflexivity.
  - intros i Hi. unfold write. apply lookup_insert_ne.
    intros Heq. apply part_path_inj in Heq. lia.
Qed.

(** opening the next part adds an empty segment and touches no other *)
Lemma open_segments (self : LiveLogcatPro) (fs : gmap string (list string))
    (a r : Z) :
  a <= r ->
  concat (segments self timestamp_base
            (open_w (part_path self timestamp_base (r + 1)) fs) a (r + 1))
  = concat (segments self timestamp_base fs a r).
Proof.
  intros Har. rewrite segments_snoc by lia. rewrite concat_app.
  unfold open_w at 2. rewrite lookup_insert_eq. simpl. rewrite app_nil_r.
  f_equal. apply segments_ext. intros i Hi. unfold open_w.
  apply lookup_insert_ne. intros Heq. apply part_path_inj in Heq. lia.
Qed.

Lemma written_false (events : list Event) : written false events = [].
Proof. induction events as [| [line |] events IH]; simpl; auto. Qed.

Lemma get_new_filepath_spec (self : LiveLogcatPro) :
  exists self2,
    _get_new_filepath self timestamp_base
    = (part_path self timestamp_base (rotation_index self + 1), self2)
    /\ rotation_index self2 = rotation_index self + 1
    /\ save_dir self2 = save_dir self
    /\ device_id self2 = device_id self
    /\ is_recording self2 = is_recording self
    /\ max_file_size_mb self2 = max_file_size_mb self.
Proof. eexists. repeat split. Qed.

(** the loop, from a state whose open file is the newest part; [self0]
    is the recorder at the start of the session *)
Lemma record_loop_segments (self0 : LiveLogcatPro) (events : list Event) :
  forall (self : LiveLogcatPro) (f : string)
         (fs : gmap string (list string)) (a : Z),
  save_dir self = save_dir self0 ->
  device_id self = device_id self0 ->
  f = part_path self0 timestamp_base (rotation_index self) ->
  a < rotation_index self ->
  let out := record_loop encoded_size timestamp_base events self f fs in
  rotation_index self <= rotation_index out.1
  /\ save_dir out.1 = save_dir self0
  /\ device_id out.1 = device_id self0
  /\ max_file_size_mb out.1 = max_file_size_mb self
  /\ concat (segments self0 timestamp_base out.2 a (rotation_index out.1))
     = concat (segments self0 timestamp_base fs a (rotation_index self))
       ++ written (is_recording self) events.
Proof.
  induction events as [| [line |] events IH]; intros self f fs a Hd Hi Hf Ha.
  - simpl. rewrite app_nil_r.
    repeat split; solve [assumption | lia | reflexivity].
  - cbn [record_loop written].
    destruct (is_recording self) eqn:Hrec; cbn [negb].
    + pose proof (write_segments self0 fs a (rotation_index self) line Ha)
        as Hw. rewrite <- Hf in Hw.
      destruct (max_file_size_mb self * 1024 * 1024
                <? tell encoded_size (write f line fs) f).
      * destruct (get_new_filepath_spec self)
          as (self2 & -> & Hr2 & Hd2 & Hi2 & Hrec2 & Hm2).
        rewrite (part_path_fields self self0 _ Hd Hi).
        set (path := part_path self0 timestamp_base (rotation_index self + 1)).
        destruct (IH (set_current_file_path path self2) path
                    (open_w path (write f line fs)) a)
          as (Hidx & Hdir & Hdev & Hmax & Hcat);
          try (simpl; congruence || lia).
        { simpl. rewrite Hr2. reflexivity. }
        simpl in Hidx, Hmax, Hcat.
        repeat split; try assumption; try lia; try congruence.
        rewrite Hcat, Hr2. subst path.
        rewrite open_segments by lia. rewrite Hw, Hrec2, Hrec.
        rewrite <- app_assoc. reflexivity.
      * destruct (IH self f (write f line fs) a Hd Hi Hf Ha)
          as (Hidx & Hdir & Hdev & Hmax & Hcat).
        repeat split; try assumption.
        rewrite Hcat, Hw, Hrec. rewrite <- app_assoc. reflexivity.
    + rewrite app_nil_r. simpl.
      repeat split; solve [assumption | lia | reflexivity].
  - cbn [record_loop written].
    destruct (IH (set_is_recording false self) f fs a Hd Hi Hf Ha)
      as (Hidx & Hdir & Hdev & Hmax & Hcat).
    repeat split; assumption.
Qed.

(** the part index never goes back *)
Lemma record_loop_index_mono (events : list Event) :
  forall (self : LiveLogcatPro) (f : string)
         (fs : gmap string (list string)),
  rotation_index self
  <= rotation_index
       (record_loop encoded_size timestamp_base events self f fs).1.
Proof.
  induction events as [| [line |] events IH]; intros self f fs;
    cbn [record_loop]; [simpl; lia | | apply (IH (set_is_recording false self))].
  destruct (negb (is_recording self)); [simpl; lia |].
  destruct (_ <? _); [| apply IH].
  destruct (get_new_filepath_spec self) as (self2 & -> & Hr2 & _).
  match goal with
  | |- _ <= rotation_index (record_loop _ _ _ ?s ?p ?g).1 =>
      specialize (IH s p g)
  end.
  simpl in IH. lia.
Qed.

Lemma foldr_add_snoc (xs : list Z) (x : Z) :
  foldr Z.add 0 (xs ++ [x]) = foldr Z.add 0 xs + x.
Proof. induction xs as [| y xs IH]; simpl; lia. Qed.

Lemma tell_write (fs : gmap string (list string)) (f line : string) :
  tell encoded_size (write f line fs) f
  = tell encoded_size fs f + encoded_size line.
Proof.
  unfold tell, write. rewrite lookup_insert_eq. simpl.
  rewrite fmap_app. simpl. apply foldr_add_snoc.
Qed.

(** as long as the part index stays, every written line is in the open
    file and its size stayed within the threshold *)
Lemma record_loop_no_rotation (events : list Event) :
  forall (self : LiveLogcatPro) (f : string)
         (fs : gmap string (list string)),
  rotation_index
    (record_loop encoded_size timestamp_base events self f fs).1
  = rotation_index self ->
  written (is_recording self) events <> [] ->
  tell encoded_size fs f
  + foldr Z.add 0 (encoded_size <$> written (is_recording self) events)
  <= max_file_size_mb self * 1024 * 1024.
Proof.
  induction events as [| [line |] events IH]; intros self f fs;
    cbn [record_loop written].
  - intros _ H. congruence.
  - destruct (is_recording self) eqn:Hrec; cbn [negb];
      [| intros _ H; congruence].
    pose proof (tell_write fs f line) as Htell.
    destruct (Z.ltb_spec (max_file_size_mb self * 1024 * 1024)
                (tell encoded_size (write f line fs) f)) as [Hover | Hfits].
    + destruct (get_new_filepath_spec self) as (self2 & -> & Hr2 & _).
      match goal with
      | |- rotation_index (record_loop _ _ _ ?s ?p ?g).1 = _ -> _ =>
          pose proof (record_loop_index_mono events s p g) as Hmono
      end.
      simpl in Hmono. intros Hsame. lia.
    + intros Hsame _. specialize (IH self f (write f line fs) Hsame).
      rewrite Hrec in IH.
      destruct (written true events) as [| l ls] eqn:Hw.
      * simpl. lia.
      * rewrite !fmap_cons. cbn [foldr].
        assert (l :: ls <> []) as Hne by discriminate.
        specialize (IH Hne). rewrite fmap_cons in IH. cbn [foldr] in IH. lia.
  - rewrite written_false. intros _ H. congruence.
Qed.

(** C6: when the lines written exceed the rotation threshold, the writer
    has produced at least two segments; the segments taken in increasing
    part order hold exactly the lines written, each once and in order,
    and the concatenated text of the files is the text of the stream. *)
Theorem rotation_keeps_every_line (events : list Event)
    (self : LiveLogcatPro) (fs : gmap string (list string)) :
  0 <= max_file_size_mb self ->
  max_file_size_mb self * 1024 * 1024
  < foldr Z.add 0 (encoded_size <$> written (is_recording self) events) ->
  let out := _recorder_worker encoded_size timestamp_base events self fs in
  let first := rotation_index self in
  let last := rotation_index out.1 in
  first + 2 <= last
  /\ concat (segments self timestamp_base out.2 first last)
     = written (is_recording self) events
  /\ String.concat ""
       (read_text out.2
          <$> (part_path self timestamp_base
                 <$> seqZ (first + 1) (last - first)))
     = String.concat "" (written (is_recording self) events).
Proof.
  intros Hmb Hbig. unfold _recorder_worker.
  destruct (get_new_filepath_spec self)
    as (self2 & -> & Hr2 & Hd2 & Hi2 & Hrec2 & Hm2).
  set (path := part_path self timestamp_base (rotation_index self + 1)).
  set (self3 := set_current_file_path path self2).
  set (fs0 := open_w path fs).
  cbv zeta.
  destruct (record_loop_segments self events self3 path fs0
              (rotation_index self))
    as (Hidx & _ & _ & _ & Hcat);
    try (subst self3; simpl; congruence || lia).
  { subst self3 path. simpl. rewrite Hr2. reflexivity. }
  assert (rotation_index self3 = rotation_index self + 1) as Hr3
    by (subst self3; simpl; exact Hr2).
  assert (is_recording self3 = is_recording self) as Hrec3
    by (subst self3; simpl; exact Hrec2).
  assert (max_file_size_mb self3 = max_file_size_mb self) as Hm3
    by (subst self3; simpl; exact Hm2).
  rewrite Hr3, Hrec3 in Hcat. subst fs0 path.
  rewrite open_segments in Hcat by lia.
  unfold segments at 2 in Hcat.
  rewrite Z.sub_diag in Hcat. simpl in Hcat.
  split; [| split].
  - destruct (Z.eq_dec
                (rotation_index
                   (record_loop encoded_size timestamp_base events self3
                      (part_path self timestamp_base (rotation_index self + 1))
                      (open_w
                         (part_path self timestamp_base
                            (rotation_index self + 1)) fs)).1)
                (rotation_index self3)) as [Hsame | Hmoved]; [| lia].
    exfalso.
    apply record_loop_no_rotation in Hsame.
    + rewrite Hrec3, Hm3 in Hsame.
      unfold tell, open_w in Hsame. rewrite lookup_insert_eq in Hsame.
      simpl in Hsame. lia.
    + rewrite Hrec3. intros Hnil. rewrite Hnil in Hbig. simpl in Hbig. lia.
  - exact Hcat.
  - rewrite <- Hcat. rewrite <- sconcat_concat. f_equal.
    unfold segments. rewrite <- !list_fmap_compose. reflexivity.
Qed.

End RecorderFacts.

Lemma rotation_keeps_every_line_witness :
  let out := Recorder._recorder_worker block_size "20250107_123456"
               sample_session sample_recorder ∅ in
  let first := Recorder.rotation_index sample_recorder in
  let last := Recorder.rotation_index out.1 in
  first + 2 <= last
  /\ concat (Recorder.segments sample_recorder "20250107_123456" out.2
               first last)
     = Recorder.written (Recorder.is_recording sample_recorder) sample_session
  /\ String.concat ""
       (Recorder.read_text out.2
          <$> (Recorder.part_path sample_recorder "20250107_123456"
                 <$> seqZ (first + 1) (last - first)))
     = String.concat ""
         (Recorder.written (Recorder.is_recording sample_recorder)
            sample_session).
Proof.
  apply (rotation_keeps_every_line block_size "20250107_123456"
           sample_session sample_recorder ∅).
  - vm_compute. discriminate.
  - vm_compute. reflexivity.
Defined.

(** the two segments of that session, and the line that came after the
    stop request and was never written *)
Example sample_session_segments :
  let out := Recorder._recorder_worker block_size "20250107_123456"
               sample_session sample_recorder ∅ in
  Recorder.rotation_index out.1 = 2
  /\ Recorder.segments sample_recorder "20250107_123456" out.2 0 2
     = [ ["abc" +:+ eol; "de" +:+ eol]; ["f" +:+ eol] ]
  /\ Recorder.current_file_path out.1
     = "captured_logs/logcat_0123456789ABCDEF_20250107_123456_part2.txt".
Proof. vm_compute. repeat split; reflexivity. Qed.

(** ** Crash markers *)

Lemma prefix_app (needle s t : string) :
  String.prefix needle s = true -> String.prefix needle (s +:+ t) = true.
Proof.
  revert s. induction needle as [| c needle IH]; intros s H;
    [destruct s; [destruct t |]; reflexivity |].
  destruct s as [| d s]; simpl in H |- *; [discriminate H |].
  change (String d s +:+ t) with (String d (s +:+ t)). cbn [String.prefix].
  destruct (ascii_dec c d); [apply IH; exact H | discriminate H].
Qed.

Lemma contains_app_l (needle s t : string) :
  Py.contains needle s = true -> Py.contains needle (s +:+ t) = true.
Proof.
  induction s as [| d s IH].
  - destruct needle; simpl; [destruct t; reflexivity | discriminate].
  - intros H. cbn [Py.contains] in H. apply orb_prop in H as [H | H].
    + pose proof (prefix_app _ _ t H) as Hp.
      change (String d s +:+ t) with (String d (s +:+ t)) in Hp |- *.
      cbn [Py.contains]. rewrite Hp. reflexivity.
    + change (String d s +:+ t) with (String d (s +:+ t)).
      cbn [Py.contains]. rewrite (IH H). apply orb_true_r.
Qed.

(** the recorder file of [LogRecorder] receives every raw line, marker
    or not *)
Lemma log_worker_step_writes (file : list string) (line : string) :
  Ivi.log_worker_step file line = file ++ [line].
Proof. unfold Ivi.log_worker_step. destruct (Ivi.marker_hit line); reflexivity. Qed.

Lemma contains_app_r (needle s t : string) :
  Py.contains needle t = true -> Py.contains needle (s +:+ t) = true.
Proof.
  intros H. induction s as [| c s IH]; [exact H |].
  change (String c s +:+ t) with (String c (s +:+ t)).
  cbn [Py.contains]. rewrite IH. apply orb_true_r.
Qed.

Lemma prefix_of_app (s t : string) : String.prefix s (s +:+ t) = true.
Proof.
  induction s as [| c s IH]; [destruct t; reflexivity |].
  change (String c s +:+ t) with (String c (s +:+ t)). cbn [String.prefix].
  destruct (ascii_dec c c); [exact IH | congruence].
Qed.

(** the badge opens the formatted line exactly when a crash keyword is in
    the message field, whatever the other fields hold *)
Lemma badge_prefix_is_crash (self : Ivi.LogcatAnalyzer)
    (parsed : Ivi.Parsed) :
  String.prefix Ivi.CRASH_BADGE (Ivi._format_log_line self parsed)
  = Ivi.is_crash parsed.
Proof.
  unfold Ivi._format_log_line.
  destruct (Ivi.is_crash parsed); [apply prefix_of_app |].
  unfold Ivi._get_level_color.
  repeat match goal with
         | |- context [String.eqb ?a ?b] => destruct (String.eqb a b)
         end; reflexivity.
Qed.

Lemma marker_is_crash (parsed : Ivi.Parsed) :
  Py.contains "FATAL EXCEPTION" (Ivi.p_message parsed) = true ->
  Ivi.is_crash parsed = true.
Proof.
  intros Hmsg. unfold Ivi.is_crash, Ivi.crash_keywords. cbn [existsb].
  rewrite Hmsg. reflexivity.
Qed.




(** * Further properties of the code *)

(** ** The worker, continued *)

Lemma emit_fields (x : Emitted) (w : LogcatMonitorWorker) :
  _running (emit x w) = _running w
  /\ _adb_process (emit x w) = _adb_process w
  /\ serial (emit x w) = serial w
  /\ emitted (emit x w) = emitted w ++ [x].
Proof. repeat split. Qed.

(** what [stop_monitor] sends out never is a log entry *)
Lemma stop_monitor_no_entry (a : ProcessAnswers) (w : LogcatMonitorWorker) :
  existsb is_entry_signal (emitted w) = false ->
  existsb is_entry_signal (emitted (stop_monitor a w)) = false.
Proof.
  intros Hw. unfold stop_monitor.
  destruct (_running w); simpl; [| exact Hw].
  destruct (_adb_process w); simpl; [| exact Hw].
  unfold graceful, forced.
  destruct (on_terminate a) as [[] | e]; simpl.
  - destruct (on_wait3 a) as [[] | []]; simpl;
      try destruct (on_kill a); simpl;
      rewrite ?existsb_app, ?Hw; reflexivity.
  - destruct e; simpl; try destruct (on_kill a); simpl;
      rewrite ?existsb_app, ?Hw; reflexivity.
Qed.

Lemma read_loop_no_entry (clock : Datetime.t) (events : list StreamEvent) :
  forall w,
  existsb is_entry_signal (emitted w) = false ->
  existsb is_entry_signal (emitted (read_loop clock events w).1) = false.
Proof.
  induction events as [| [line | e | a] events IH]; intros w Hw;
    cbn [read_loop].
  - exact Hw.
  - rewrite parse_log_line_in_file.
    destruct (negb (_running w)); [exact Hw | apply IH; exact Hw].
  - exact Hw.
  - apply IH. apply stop_monitor_no_entry. exact Hw.
Qed.

(** X1: in this file the worker never hands a log entry to the UI,
    whatever the producer prints: [_parse_log_line] returns [None] for
    every line because [datetime] names the module. *)
Theorem worker_never_emits_an_entry (clock : Datetime.t)
    (str_exc : Py.Exc -> string)
    (popen : Py.result unit) (events : list StreamEvent)
    (final : ProcessAnswers) (w : LogcatMonitorWorker) (line : string) :
  existsb is_entry_signal (emitted w) = false ->
  _parse_log_line clock line = Py.Ok None
  /\ existsb is_entry_signal
       (emitted (start_monitor clock str_exc popen events final w)) = false.
Proof.
  intros Hw. split; [apply parse_log_line_in_file |].
  unfold start_monitor.
  destruct (_running w || String.eqb (serial w) ""); [exact Hw |].
  destruct popen as [[] | e].
  - match goal with
    | |- context [read_loop clock events ?w0] =>
        pose proof (read_loop_no_entry clock events w0) as Hrl;
        destruct (read_loop clock events w0) as [w1 r]
    end.
    simpl in Hrl. rewrite !existsb_app, Hw in Hrl.
    specialize (Hrl eq_refl).
    apply stop_monitor_no_entry.
    destruct r as [[] | e]; simpl; [exact Hrl |].
    destruct e; simpl; try destruct (_running w1); simpl;
      rewrite ?existsb_app, ?Hrl; reflexivity.
  - apply stop_monitor_no_entry.
    destruct e; simpl; rewrite ?existsb_app, ?Hw; reflexivity.
Qed.

Lemma worker_never_emits_an_entry_witness :
  _parse_log_line sample_clock
    "01-07 12:34:56.789  1234  5678 E MyTag: Something failed"
  = Py.Ok None
  /\ existsb is_entry_signal
       (emitted (start_monitor sample_clock sample_exc_text (Py.Ok tt)
                   two_lines obedient
                   (LogcatMonitorWorker_init "0123456789ABCDEF"))) = false.
Proof.
  apply (worker_never_emits_an_entry sample_clock sample_exc_text (Py.Ok tt)
           two_lines obedient (LogcatMonitorWorker_init "0123456789ABCDEF")).
  reflexivity.
Defined.

(** X2: on a running worker [stop_monitor] ends with the worker stopped
    and the handle released whatever [terminate], [wait] and [kill]
    answer; [kill] is sent exactly when the graceful part ended in
    [TimeoutExpired]. *)
Theorem stop_monitor_always_releases (a : ProcessAnswers)
    (w : LogcatMonitorWorker) (p : Popen) :
  _running w = true ->
  _adb_process w = Some p ->
  existsb is_proc_call (emitted w) = false ->
  let w' := stop_monitor a w in
  _running w' = false
  /\ _adb_process w' = None
  /\ existsb (fun x => match x with proc_kill => true | _ => false end)
       (emitted w')
     = match on_terminate a, on_wait3 a with
       | Py.Raise Py.TimeoutExpired, _ => true
       | Py.Ok _, Py.Raise Py.TimeoutExpired => true
       | _, _ => false
       end.
Proof.
  intros Hrun Hp Hquiet. unfold stop_monitor. rewrite Hrun. simpl.
  rewrite Hp. unfold graceful, forced.
  assert (existsb (fun x => match x with proc_kill => true | _ => false end)
            (emitted w) = false) as Hk.
  { clear -Hquiet. induction (emitted w) as [| x xs IH]; [reflexivity |].
    simpl in Hquiet |- *. apply orb_false_elim in Hquiet as [Hx Hxs].
    rewrite (IH Hxs). destruct x; simpl in *; congruence. }
  destruct (on_terminate a) as [[] | e]; simpl.
  - destruct (on_wait3 a) as [[] | []]; simpl;
      try destruct (on_kill a); simpl;
      rewrite ?existsb_app, ?Hk; repeat split; reflexivity.
  - destruct e; simpl; try destruct (on_kill a); simpl;
      rewrite ?existsb_app, ?Hk; repeat split; reflexivity.
Qed.

Lemma stop_monitor_always_releases_witness :
  let w' := stop_monitor stubborn sample_worker in
  _running w' = false
  /\ _adb_process w' = None
  /\ existsb (fun x => match x with proc_kill => true | _ => false end)
       (emitted w')
     = true.
Proof.
  apply (stop_monitor_always_releases stubborn sample_worker
           (mkPopen ["adb"; "-s"; "0123456789ABCDEF"; "logcat"; "-v";
                     "threadtime"])); reflexivity.
Defined.

(** X3: a second [stop_monitor] does nothing, whatever it would be
    answered. *)
Theorem stop_monitor_idempotent (a1 a2 : ProcessAnswers)
    (w : LogcatMonitorWorker) :
  stop_monitor a2 (stop_monitor a1 w) = stop_monitor a1 w.
Proof.
  destruct (_running w) eqn:Hrun.
  - apply stop_monitor_not_running.
    destruct (_adb_process w) as [p |] eqn:Hp.
    + apply stop_monitor_releases. exact Hrun.
    + apply stop_monitor_releases. exact Hrun.
  - rewrite (stop_monitor_not_running a1 w Hrun).
    apply stop_monitor_not_running. exact Hrun.
Qed.



(** the two failure texts on the sample exceptions *)
Example launch_failure_status_ex :
  let run e := last (emitted (start_monitor sample_clock sample_exc_text
                                (Py.Raise e) [] obedient
                                (LogcatMonitorWorker_init "0123456789ABCDEF")))
  in
  run Py.FileNotFoundError
  = Some (status_signal "ADB 工具未找到。请检查 PATH 配置。")
  /\ run Py.OSError
     = Some (status_signal
               "Logcat 监控启动失败: [Errno 13] Permission denied: 'adb'").
Proof. vm_compute. split; reflexivity. Qed.

(** once stopped and released, the loop keeps the worker that way *)
Lemma read_loop_stopped (clock : Datetime.t) (events : list StreamEvent) :
  forall w,
  _running w = false -> _adb_process w = None ->
  _running (read_loop clock events w).1 = false
  /\ _adb_process (read_loop clock events w).1 = None.
Proof.
  induction events as [| [line | e | a] events IH]; intros w Hrun Hp;
    cbn [read_loop].
  - split; assumption.
  - rewrite Hrun. simpl. split; assumption.
  - split; assumption.
  - rewrite (stop_monitor_not_running a w Hrun). apply IH; assumption.
Qed.

(** X5: a stop request from the UI thread while the producer is being
    read ends the worker with the handle released, whatever the stream
    does afterwards. *)
Theorem ui_stop_releases_the_handle (clock : Datetime.t)
    (str_exc : Py.Exc -> string)
    (lines : list string) (a : ProcessAnswers) (rest : list StreamEvent)
    (final : ProcessAnswers) (serial : string) :
  serial <> "" ->
  let w := start_monitor clock str_exc (Py.Ok tt)
             ((Line <$> lines) ++ UiStop a :: rest) final
             (LogcatMonitorWorker_init serial) in
  _running w = false /\ _adb_process w = None.
Proof.
  intros Hserial. unfold start_monitor. simpl.
  destruct (String.eqb_spec serial "") as [-> | _]; [congruence |].
  match goal with
  | |- context [read_loop clock _ ?w0] => set (w1 := w0)
  end.
  assert (forall ls w,
            read_loop clock ((Line <$> ls) ++ UiStop a :: rest) w
            = (if _running w || bool_decide (ls = [])
               then read_loop clock rest (stop_monitor a w)
               else (w, Py.Ok tt))) as Hsplit.
  { induction ls as [| l ls IHls]; intros w.
    - simpl. rewrite orb_true_r. reflexivity.
    - change ((Line <$> l :: ls) ++ UiStop a :: rest)
        with (Line l :: ((Line <$> ls) ++ UiStop a :: rest)).
      cbn [read_loop]. rewrite parse_log_line_in_file.
      destruct (_running w) eqn:Hrun; simpl; [| reflexivity].
      rewrite IHls, Hrun. reflexivity. }
  rewrite Hsplit. subst w1. simpl.
  match goal with
  | |- context [read_loop clock rest (stop_monitor a ?w0)] =>
      destruct (stop_monitor_releases a w0 eq_refl) as [Hp0 Hr0];
      pose proof (read_loop_stopped clock rest (stop_monitor a w0) Hr0 Hp0)
        as [Hrun Hp];
      destruct (read_loop clock rest (stop_monitor a w0)) as [w2 r]
  end.
  simpl in Hrun, Hp.
  assert (forall w3, _running w3 = false -> _adb_process w3 = None ->
            _running (stop_monitor final (set_running false w3)) = false
            /\ _adb_process (stop_monitor final (set_running false w3))
               = None) as Hfin.
  { intros w3 H1 H2. rewrite stop_monitor_not_running by reflexivity.
    simpl. split; [reflexivity | exact H2]. }
  destruct r as [[] | e]; simpl.
  - apply Hfin; assumption.
  - destruct e; simpl; rewrite ?Hrun; simpl; apply Hfin; assumption.
Qed.

Lemma ui_stop_releases_the_handle_witness :
  let w := start_monitor sample_clock sample_exc_text (Py.Ok tt)
             ((Line <$> ["a"; "b"]) ++ UiStop stubborn :: [Line "c"])
             obedient (LogcatMonitorWorker_init "0123456789ABCDEF") in
  _running w = false /\ _adb_process w = None.
Proof.
  apply (ui_stop_releases_the_handle sample_clock sample_exc_text
           ["a"; "b"] stubborn [Line "c"] obedient "0123456789ABCDEF").
  discriminate.
Defined.

(** ** The filter and the live view, continued *)

Section FilterMore.

Context {Pattern : Type} (search : Pattern -> string -> bool)
  (compile : string -> Py.result Pattern) (str_exc : Py.Exc -> string).

(** X6: with [min_level] alone, the levels let through are those whose
    letter is not below the letter of [min_level]: DEBUG lets every level
    through, ERROR all but DEBUG, WARN only WARN. *)
Theorem level_only_filter_table (m : LogLevel) (entry : LogEntry) :
  check_criteria Pattern search (mkCriteria Pattern m None None None) entry
  = bool_decide (level entry ∈ let_through m).
Proof.
  rewrite check_level_only.
  destruct m, (level entry); vm_compute; reflexivity.
Qed.

Lemma filter_length_mono {A} (f g : A -> bool) (l : list A) :
  (forall x, f x = true -> g x = true) ->
  (length (List.filter f l) <= length (List.filter g l))%nat.
Proof.
  intros Hfg. induction l as [| x l IH]; simpl; [lia |].
  destruct (f x) eqn:Hf.
  - rewrite (Hfg x Hf). simpl. lia.
  - destruct (g x); simpl; lia.
Qed.

(** X7: the check is monotone in the order of the level letters: raising
    [min_level] to a level whose letter is not smaller never lets more
    records through. *)
Theorem filter_monotone_in_the_letter (m1 m2 : LogLevel)
    (tr mr : option Pattern) (pt : option (list Z))
    (entries : list LogEntry) :
  Py.str_lt (value m2) (value m1) = false ->
  (accepted Pattern search (mkCriteria Pattern m2 tr mr pt) entries
   <= accepted Pattern search (mkCriteria Pattern m1 tr mr pt) entries)%nat.
Proof.
  intros Hle. apply filter_length_mono. intros entry.
  unfold check_criteria. cbn [min_level tag_regex msg_regex pid_tid].
  destruct m1, m2; try discriminate Hle; destruct (level entry);
    cbn; auto; discriminate.
Qed.

Lemma pid_list_no_digits (pieces : list string) :
  forallb (fun p => negb (Py.isdigit (Py.strip p))) pieces = true ->
  pid_list pieces = Py.Ok [].
Proof.
  induction pieces as [| p pieces IH]; [reflexivity |].
  simpl. intros H. apply andb_prop in H as [Hp Hrest].
  apply negb_true_iff in Hp. rewrite Hp. apply IH. exact Hrest.
Qed.

(** X8: a PID text none of whose comma-separated pieces is all digits
    installs an empty list, and an empty list filters nothing: the check
    is then the one of the default criteria. *)
Theorem pid_text_without_numbers_filters_nothing
    (pid_filter_edit : string) (self : AdayoMegaTool Pattern)
    (entry : LogEntry) :
  Py.strip pid_filter_edit <> "" ->
  forallb (fun p => negb (Py.isdigit (Py.strip p)))
    (Py.split "," (Py.strip pid_filter_edit)) = true ->
  let self' := _apply_live_logcat_filter Pattern compile str_exc "ALL" "" ""
                 pid_filter_edit self in
  pid_tid _ (logcat_filter_criteria _ self') = Some []
  /\ _check_log_filter Pattern search self' entry
     = check_criteria Pattern search (default_criteria Pattern) entry.
Proof.
  intros Hne Hno. unfold _apply_live_logcat_filter.
  cbn [Py.split hd String.eqb Ascii.eqb Bool.eqb Py.strip Py.lstrip Py.rstrip
       compile_or_none].
  destruct (Py.strip pid_filter_edit) as [| c s] eqn:Hs; [congruence |].
  rewrite (pid_list_no_digits _ Hno). simpl. split; reflexivity.
Qed.

End FilterMore.

Lemma filter_monotone_in_the_letter_witness :
  (accepted unit (fun _ _ => true) (mkCriteria unit WARN None None None)
     [sample_entry ERROR 1; sample_entry WARN 2]
   <= accepted unit (fun _ _ => true) (mkCriteria unit ERROR None None None)
        [sample_entry ERROR 1; sample_entry WARN 2])%nat.
Proof.
  apply (filter_monotone_in_the_letter (fun _ _ => true) ERROR WARN None None
           None [sample_entry ERROR 1; sample_entry WARN 2]).
  reflexivity.
Defined.

Lemma pid_text_without_numbers_filters_nothing_witness :
  let self' := _apply_live_logcat_filter unit (fun _ => Py.Ok tt)
                 sample_exc_text "ALL" ""
                 "" "abc, x1" (sample_tool []) in
  pid_tid _ (logcat_filter_criteria _ self') = Some []
  /\ _check_log_filter unit (fun _ _ => true) self' (sample_entry WARN 1)
     = check_criteria unit (fun _ _ => true) (default_criteria unit)
         (sample_entry WARN 1).
Proof.
  apply (pid_text_without_numbers_filters_nothing (fun _ _ => true)
           (fun _ => Py.Ok tt) sample_exc_text "abc, x1" (sample_tool [])
           (sample_entry WARN 1)).
  - discriminate.
  - reflexivity.
Defined.

Section ToolMore.

Context {Pattern : Type} (search : Pattern -> string -> bool)
  (compile : string -> Py.result Pattern) (str_exc : Py.Exc -> string).

Lemma combo_text_first_word (l : LogLevel) :
  hd "" (Py.split " " (combo_text l)) = LogLevel_name l.
Proof. destruct l; reflexivity. Qed.

Lemma LogLevel_by_name_of_name (l : LogLevel) :
  LogLevel_by_name (LogLevel_name l) = Py.Ok l.
Proof. destruct l; reflexivity. Qed.

Lemma LogLevel_name_is_not_ALL (l : LogLevel) : String.eqb (LogLevel_name l) "ALL" = false.
Proof. destruct l; reflexivity. Qed.

(** X9: the criteria are written key by key: when the tag pattern does not
    compile, [min_level] has already taken the level chosen in the combo
    box, the three other keys keep their former values, and the failure
    is logged with the text of the [re.error]. *)
Theorem bad_tag_pattern_leaves_half_updated_filter
    (l : LogLevel) (tag_filter_edit message_filter_edit pid_filter_edit
    : string) (self : AdayoMegaTool Pattern) :
  Py.strip tag_filter_edit <> "" ->
  compile (Py.strip tag_filter_edit) = Py.Raise Py.ReError ->
  let old := logcat_filter_criteria _ self in
  let self' := _apply_live_logcat_filter Pattern compile str_exc (combo_text l)
                 tag_filter_edit message_filter_edit pid_filter_edit self in
  logcat_filter_criteria _ self'
  = mkCriteria Pattern l (tag_regex _ old) (msg_regex _ old) (pid_tid _ old)
  /\ log_text_edit _ self'
     = log_text_edit _ self
       ++ [("Logcat", "Regex 格式错误: " +:+ str_exc Py.ReError, "ERROR")]
  /\ logcat_table _ self' = logcat_table _ self.
Proof.
  intros Hne Hbad. unfold _apply_live_logcat_filter.
  rewrite combo_text_first_word, LogLevel_name_is_not_ALL,
    LogLevel_by_name_of_name.
  unfold compile_or_none.
  destruct (Py.strip tag_filter_edit) as [| c s] eqn:Hs; [congruence |].
  rewrite Hbad. simpl. repeat split.
Qed.

(** X10: the two counters and the table after any stream: every record is
    counted as received, the accepted ones as displayed, the table holds
    the rows of the accepted records pushed in order and never more than
    MAX_LIVE_LOG_ROWS of them, and the criteria are untouched. *)
Theorem live_log_counters (entries : list LogEntry) :
  forall (self : AdayoMegaTool Pattern) (t : list Row),
  logcat_table _ self = Some t ->
  rowCount t <= MAX_LIVE_LOG_ROWS ->
  exists self' t',
    on_new_live_logs Pattern search self entries = Py.Ok self'
    /\ logcat_table _ self' = Some t'
    /\ logcat_total_lines _ self'
       = logcat_total_lines _ self + Z.of_nat (length entries)
    /\ logcat_displayed_lines _ self'
       = logcat_displayed_lines _ self
         + Z.of_nat (accepted Pattern search (logcat_filter_criteria _ self)
                       entries)
    /\ rowCount t'
       = Z.min MAX_LIVE_LOG_ROWS
           (rowCount t
            + Z.of_nat (accepted Pattern search
                          (logcat_filter_criteria _ self) entries))
    /\ logcat_filter_criteria _ self' = logcat_filter_criteria _ self.
Proof.
  induction entries as [| entry entries IH]; intros self t Ht Hle.
  - exists self, t. simpl. unfold accepted. simpl.
    repeat split; try assumption; try lia.
  - cbn [on_new_live_logs]. unfold _on_new_live_log at 1.
    unfold accepted. cbn [List.filter]. unfold _check_log_filter.
    destruct (check_criteria Pattern search (logcat_filter_criteria _ self)
                entry) eqn:Hc; cbn [negb].
    + rewrite Ht.
      match goal with
      | |- context [Py.Ok ?s ≫= _] => set (self1 := s)
      end.
      destruct (IH self1 (live_view_push t (row_of entry)) eq_refl
                  (live_view_push_length t (row_of entry) Hle))
        as (self' & t' & Hrun & Htab & Htot & Hdis & Hrows & Hcrit).
      exists self', t'. split; [exact Hrun |]. split; [exact Htab |].
      subst self1. cbn in Htot, Hdis, Hrows, Hcrit.
      unfold accepted in Hdis, Hrows.
      assert (rowCount (live_view_push t (row_of entry))
              = Z.min MAX_LIVE_LOG_ROWS (rowCount t + 1)) as Hpush.
      { rewrite live_view_push_spec by exact Hle.
        pose proof MAX_LIVE_LOG_ROWS_pos.
        unfold rowCount in *. rewrite length_drop, length_app. simpl. lia. }
      rewrite Hpush in Hrows. cbn [length].
      split; [lia |]. split; [lia |]. split; [| exact Hcrit].
      lia.
    + match goal with
      | |- context [Py.Ok ?s ≫= _] => set (self1 := s)
      end.
      destruct (IH self1 t Ht Hle)
        as (self' & t' & Hrun & Htab & Htot & Hdis & Hrows & Hcrit).
      exists self', t'. split; [exact Hrun |]. split; [exact Htab |].
      subst self1. cbn in Htot, Hdis, Hrows, Hcrit.
      unfold accepted in Hdis, Hrows. cbn [length].
      repeat split; try assumption; lia.
Qed.

End ToolMore.

(** X11: eviction is first in, first out, whatever the levels: a push on a
    full table drops the top row and nothing else. *)
Theorem full_view_drops_top_row (t : list Row) (r : Row) :
  rowCount t = MAX_LIVE_LOG_ROWS ->
  live_view_push t r = drop 1 t ++ [r].
Proof.
  intros Hfull. rewrite live_view_push_spec by lia.
  pose proof MAX_LIVE_LOG_ROWS_pos. unfold rowCount in Hfull.
  replace (length t + 1 - Z.to_nat MAX_LIVE_LOG_ROWS)%nat with 1%nat by lia.
  destruct t as [| top t]; [simpl in Hfull; lia | reflexivity].
Qed.

Lemma bad_tag_pattern_leaves_half_updated_filter_witness :
  let self' := _apply_live_logcat_filter string toy_compile
                 sample_exc_text
                 (combo_text ERROR) " ( " "" ""
                 (mkTool string None None 0 0 (default_criteria string)
                    (Some []) (0, 0) []) in
  logcat_filter_criteria _ self'
  = mkCriteria string ERROR None None None
  /\ log_text_edit _ self'
     = [] ++ [("Logcat", "Regex 格式错误: " +:+ sample_exc_text Py.ReError,
               "ERROR")]
  /\ logcat_table _ self' = Some [].
Proof.
  apply (bad_tag_pattern_leaves_half_updated_filter toy_compile
           sample_exc_text ERROR " ( " "" ""
           (mkTool string None None 0 0 (default_criteria string) (Some [])
              (0, 0) [])).
  - discriminate.
  - reflexivity.
Defined.

Lemma live_log_counters_witness :
  exists self' t',
    on_new_live_logs unit (fun _ _ => true) (sample_tool [])
      [sample_entry WARN 1; sample_entry INFO 2; sample_entry WARN 3]
    = Py.Ok self'
    /\ logcat_table _ self' = Some t'
    /\ logcat_total_lines _ self' = 7 + Z.of_nat 3
    /\ logcat_displayed_lines _ self'
       = 3 + Z.of_nat (accepted unit (fun _ _ => true)
                         (logcat_filter_criteria _ (sample_tool []))
                         [sample_entry WARN 1; sample_entry INFO 2;
                          sample_entry WARN 3])
    /\ rowCount t'
       = Z.min MAX_LIVE_LOG_ROWS
           (rowCount []
            + Z.of_nat (accepted unit (fun _ _ => true)
                          (logcat_filter_criteria _ (sample_tool []))
                          [sample_entry WARN 1; sample_entry INFO 2;
                           sample_entry WARN 3]))
    /\ logcat_filter_criteria _ self'
       = logcat_filter_criteria _ (sample_tool []).
Proof.
  apply (live_log_counters (fun _ _ => true)
           [sample_entry WARN 1; sample_entry INFO 2; sample_entry WARN 3]
           (sample_tool []) []).
  - reflexivity.
  - vm_compute. discriminate.
Defined.

Lemma full_view_drops_top_row_witness :
  live_view_push full_table (row_of (sample_entry VERBOSE 5001))
  = drop 1 full_table ++ [row_of (sample_entry VERBOSE 5001)].
Proof.
  apply (full_view_drops_top_row full_table
           (row_of (sample_entry VERBOSE 5001))).
  vm_compute. reflexivity.
Defined.

Lemma digits_value_None (s : string) :
  Py.all_chars Py.isdecimal s = false ->
  forall acc, Py.digits_value acc s = None.
Proof.
  induction s as [| c s IH]; intros Hall acc; simpl in *; [discriminate |].
  destruct (Py.isdecimal c); [apply IH; exact Hall | reflexivity].
Qed.

(** [int] raises on a string that holds a character outside 0..9 *)
Lemma int_raises (s : string) :
  Py.all_chars Py.isdecimal s = false -> Py.int s = Py.Raise Py.ValueError.
Proof.
  intros Hall. unfold Py.int. destruct s as [| c s]; [reflexivity |].
  rewrite (digits_value_None _ Hall). reflexivity.
Qed.

Lemma int_ok_or_value_error (s : string) :
  (exists n, Py.int s = Py.Ok n) \/ Py.int s = Py.Raise Py.ValueError.
Proof.
  unfold Py.int. destruct s as [| c s]; [right; reflexivity |].
  destruct (Py.digits_value 0 (String c s)); [| eauto].
  destruct (Py.MAX_STR_DIGITS <? _); eauto.
Qed.

(** a string that holds a superscript digit is not made of 0..9 *)
Lemma superscript_is_not_decimal (s : string) :
  has_superscript_digit s = true -> Py.all_chars Py.isdecimal s = false.
Proof.
  unfold has_superscript_digit. intros H. apply negb_true_iff in H.
  induction s as [| c s IH]; [discriminate H |].
  cbn [Py.all_chars] in H |- *.
  destruct (is_superscript_digit c) eqn:Hc; cbn [negb andb] in H.
  - assert (Py.isdecimal c = false) as ->; [| reflexivity].
    unfold is_superscript_digit in Hc. unfold Py.isdecimal.
    destruct (Z.eqb_spec (Z.of_nat (nat_of_ascii c)) 178) as [-> | _];
      [reflexivity |].
    destruct (Z.eqb_spec (Z.of_nat (nat_of_ascii c)) 179) as [-> | _];
      [reflexivity |].
    destruct (Z.eqb_spec (Z.of_nat (nat_of_ascii c)) 185) as [-> | _];
      [reflexivity | discriminate Hc].
  - rewrite (IH H). apply andb_false_r.
Qed.

Lemma pid_list_raises (pieces : list string) (p : string) :
  In p pieces ->
  Py.isdigit (Py.strip p) = true ->
  Py.all_chars Py.isdecimal (Py.strip p) = false ->
  pid_list pieces = Py.Raise Py.ValueError.
Proof.
  intros Hin Hdig Hdec.
  induction pieces as [| q pieces IH]; [destruct Hin |].
  cbn [pid_list].
  destruct Hin as [-> | Hin].
  - rewrite Hdig, (int_raises _ Hdec). reflexivity.
  - rewrite (IH Hin). destruct (Py.isdigit (Py.strip q)); [| reflexivity].
    destruct (int_ok_or_value_error (Py.strip q)) as [[n ->] | ->];
      reflexivity.
Qed.

Section PidMore.

Context {Pattern : Type} (search : Pattern -> string -> bool)
  (compile : string -> Py.result Pattern) (str_exc : Py.Exc -> string).

(** X12: [str.isdigit] accepts the superscript digits, which [int]
    rejects.  A PID text with a piece that passes [isdigit] and holds a
    superscript digit makes the list comprehension raise: the level and
    the two patterns have been written by then, the PID list keeps its
    former value, and the update is not logged. *)
Theorem pid_piece_rejected_by_int_aborts_update
    (l : LogLevel) (tag_filter_edit message_filter_edit pid_filter_edit
    : string) (self : AdayoMegaTool Pattern)
    (tr mr : option Pattern) (p : string) :
  compile_or_none Pattern compile (Py.strip tag_filter_edit) = Py.Ok tr ->
  compile_or_none Pattern compile (Py.strip message_filter_edit) = Py.Ok mr ->
  In p (Py.split "," (Py.strip pid_filter_edit)) ->
  Py.isdigit (Py.strip p) = true ->
  has_superscript_digit (Py.strip p) = true ->
  let self' := _apply_live_logcat_filter Pattern compile str_exc
                 (combo_text l) tag_filter_edit message_filter_edit
                 pid_filter_edit self in
  logcat_filter_criteria _ self'
  = mkCriteria Pattern l tr mr (pid_tid _ (logcat_filter_criteria _ self))
  /\ log_text_edit _ self' = log_text_edit _ self.
Proof.
  intros Htr Hmr Hin Hdig Hsup.
  pose proof (superscript_is_not_decimal _ Hsup) as Hdec.
  unfold _apply_live_logcat_filter.
  rewrite combo_text_first_word, LogLevel_name_is_not_ALL,
    LogLevel_by_name_of_name.
  rewrite Htr, Hmr.
  destruct (Py.strip pid_filter_edit) as [| c s] eqn:Hs.
  - simpl in Hin. destruct Hin as [<- | []]. discriminate Hdig.
  - rewrite (pid_list_raises _ p Hin Hdig Hdec). split; reflexivity.
Qed.

End PidMore.

Lemma pid_piece_rejected_by_int_aborts_update_witness :
  let self := mkTool unit None None 0 0
                (mkCriteria unit WARN None None (Some [7])) (Some []) (0, 0)
                [] in
  let self' := _apply_live_logcat_filter unit (fun _ => Py.Ok tt)
                 sample_exc_text (combo_text ERROR) "" ""
                 ("12," +:+ superscript_two) self in
  logcat_filter_criteria _ self'
  = mkCriteria unit ERROR None None
      (pid_tid _ (logcat_filter_criteria _ self))
  /\ log_text_edit _ self' = log_text_edit _ self.
Proof.
  apply (pid_piece_rejected_by_int_aborts_update (fun _ => Py.Ok tt)
           sample_exc_text ERROR "" "" ("12," +:+ superscript_two)
           (mkTool unit None None 0 0
              (mkCriteria unit WARN None None (Some [7])) (Some []) (0, 0) [])
           None None superscript_two).
  - reflexivity.
  - reflexivity.
  - vm_compute. right. left. reflexivity.
  - reflexivity.
  - reflexivity.
Defined.

(** ** The columns of a matched line *)

(** what a repetition takes is inside its character set *)
Lemma run_prefix (cs : Re.CharSet) (s : string) :
  forall (hi : option nat) (j : nat),
  (j <= Re.run cs hi s)%nat ->
  Py.all_chars (Re.in_set cs) (Re.take j s) = true
  /\ String.length (Re.take j s) = j.
Proof.
  induction s as [| c s IH]; intros hi j Hj.
  - assert (j = 0%nat) as -> by (destruct hi as [[| n] |]; simpl in Hj; lia).
    split; reflexivity.
  - destruct j as [| j]; [split; reflexivity |].
    assert (Re.in_set cs c = true
            /\ exists hi', (j <= Re.run cs hi' s)%nat) as [Hc [hi' Hj']].
    { destruct hi as [[| n] |]; simpl in Hj; try lia;
        destruct (Re.in_set cs c); try lia;
        (split; [reflexivity | eexists; apply le_S_n; exact Hj]). }
    destruct (IH hi' j Hj') as [Hall Hlen].
    simpl. rewrite Hc, Hall, Hlen. split; reflexivity.
Qed.

Lemma take_of_drop (whole : string) (pos j : nat) :
  Re.take (pos + j - pos) (Re.drop pos whole) = Re.take j (Re.drop pos whole).
Proof. f_equal. lia. Qed.

(** a group around one repetition captures a run of its character set *)
Lemma run_toks_group_rep (whole g : string) (cs : Re.CharSet) (lo : nat)
    (hi : option nat) (ts : list Re.Tok) (rest : string) (pos : nat)
    (st : Re.St) (m : gmap string string) :
  Re.run_toks whole (Re.Open g :: Re.Rep cs lo hi :: Re.Close g :: ts)
    rest pos st = Some m ->
  rest = Re.drop pos whole ->
  exists text st',
    Py.all_chars (Re.in_set cs) text = true
    /\ (lo <= String.length text)%nat
    /\ (forall h, hi = Some h -> (String.length text <= h)%nat)
    /\ Re.closed st' !! g = Some text
    /\ exists rest' pos', Re.run_toks whole ts rest' pos' st' = Some m.
Proof.
  intros Hrun Hrest. cbn [Re.run_toks] in Hrun.
  apply give_back_Some in Hrun as (j & Hj & Hrun).
  destruct (run_prefix cs rest hi j) as [Hall Hlen]; [lia |].
  assert (forall h, hi = Some h -> (j <= h)%nat) as Hhi.
  { intros h ->. pose proof (run_at_most cs h rest). lia. }
  unfold Re.lookup_open in Hrun. cbn [Re.opened List.find fst] in Hrun.
  rewrite String.eqb_refl in Hrun. cbn [fmap option_fmap option_map snd] in Hrun.
  rewrite <- Hrest, Nat.add_comm, Nat.add_sub in Hrun.
  eexists (Re.take j rest), _. split; [exact Hall |].
  split; [lia |]. split; [rewrite Hlen; exact Hhi |]. split; [| eauto].
  cbn [Re.closed]. apply lookup_insert_eq.
Qed.

(** the text of a group that sits at offset [n] of a pattern *)
Lemma group_of_match (pat : list Re.Tok) (n : nat) (g : string)
    (cs : Re.CharSet) (lo : nat) (hi : option nat) (line : string)
    (data : gmap string string) :
  drop n pat
  = Re.Open g :: Re.Rep cs lo hi :: Re.Close g :: drop (n + 3) pat ->
  closes g (drop (n + 3) pat) = false ->
  Re.match_ pat line = Some data ->
  exists text,
    data !! g = Some text
    /\ Py.all_chars (Re.in_set cs) text = true
    /\ (lo <= String.length text)%nat
    /\ (forall h, hi = Some h -> (String.length text <= h)%nat).
Proof.
  intros Hshape Hclosed Hrun. unfold Re.match_ in Hrun.
  rewrite <- (take_drop n pat) in Hrun.
  apply run_toks_app in Hrun as (rest & pos & st & Hrest & Hrun);
    [| reflexivity].
  rewrite Hshape in Hrun.
  apply run_toks_group_rep in Hrun
    as (text & st' & Hall & Hlen & Hhi & Hg & rest' & pos' & Hrun);
    [| exact Hrest].
  apply (run_toks_keeps_group _ g _ Hclosed) in Hrun.
  exists text. rewrite Hrun. auto.
Qed.

Lemma digits_value_Some (s : string) :
  Py.all_chars Py.isdecimal s = true ->
  forall acc, 0 <= acc -> exists n, Py.digits_value acc s = Some n /\ 0 <= n.
Proof.
  induction s as [| c s IH]; intros Hall acc Hacc; simpl in *.
  - eauto.
  - apply andb_prop in Hall as [Hc Hs]. rewrite Hc.
    apply (IH Hs). unfold Py.isdecimal in Hc.
    apply andb_prop in Hc as [Hlo _]. apply Z.leb_le in Hlo. lia.
Qed.

(** on what a [\d+] group captured, [int] fails only by the limit on the
    number of digits *)
Lemma int_of_digit_group (s : string) :
  Py.all_chars (Re.in_set Re.Digit) s = true ->
  (1 <= String.length s)%nat ->
  s <> ""
  /\ (Z.of_nat (String.length s) <= Py.MAX_STR_DIGITS ->
      exists n, Py.int s = Py.Ok n /\ 0 <= n)
  /\ (Py.MAX_STR_DIGITS < Z.of_nat (String.length s) ->
      Py.int s = Py.Raise Py.ValueError).
Proof.
  intros Hall Hlen. destruct s as [| c s]; [simpl in Hlen; lia |].
  destruct (digits_value_Some (String c s) Hall 0) as (n & Hn & Hpos);
    [lia |].
  split; [discriminate |]. unfold Py.int. rewrite Hn.
  destruct (Z.ltb_spec Py.MAX_STR_DIGITS (Z.of_nat (String.length (String c s))))
    as [Hlong | Hshort].
  - split; [lia | reflexivity].
  - split; [eauto | lia].
Qed.

Lemma no_colon_inside (s : string) :
  Py.all_chars (Re.in_set (Re.NoneOf ":")) s = true ->
  Py.contains ":" s = false.
Proof.
  induction s as [| c s IH]; intros Hall; [reflexivity |].
  simpl in Hall. apply andb_prop in Hall as [Hc Hs].
  cbn [Py.contains String.prefix]. rewrite (IH Hs), orb_false_r.
  destruct (ascii_dec ":" c) as [<- | Hne]; [discriminate Hc |].
  reflexivity.
Qed.

(** X13: in every line that LOGCAT_REGEX accepts the tag holds no colon: the
    first colon after the level column ends the tag; and the pid and tid
    columns are digit strings that are not empty, on which [int] gives a
    number that is not negative, unless the column holds more digits than
    [int] converts: then it raises [ValueError]. *)
Theorem matched_line_columns (line : string) (data : gmap string string) :
  Re.match_ LOGCAT_REGEX line = Some data ->
  exists pid_text tid_text tag_text,
    data !! "pid" = Some pid_text
    /\ data !! "tid" = Some tid_text
    /\ data !! "tag" = Some tag_text
    /\ (forall text, text = pid_text \/ text = tid_text ->
        text <> ""
        /\ (Z.of_nat (String.length text) <= Py.MAX_STR_DIGITS ->
            exists value, Py.int text = Py.Ok value /\ 0 <= value)
        /\ (Py.MAX_STR_DIGITS < Z.of_nat (String.length text) ->
            Py.int text = Py.Raise Py.ValueError))
    /\ Py.contains ":" tag_text = false.
Proof.
  intros Hm.
  destruct (group_of_match LOGCAT_REGEX 24 "pid" Re.Digit 1 None line data
              eq_refl eq_refl Hm) as (p & Hp & Hpd & Hpl & _).
  destruct (group_of_match LOGCAT_REGEX 28 "tid" Re.Digit 1 None line data
              eq_refl eq_refl Hm) as (t & Ht & Htd & Htl & _).
  destruct (group_of_match LOGCAT_REGEX 36 "tag" (Re.NoneOf ":") 0 None line
              data eq_refl eq_refl Hm) as (g & Hg & Hgc & _ & _).
  exists p, t, g.
  split; [exact Hp |]. split; [exact Ht |]. split; [exact Hg |].
  split; [| apply no_colon_inside; exact Hgc].
  intros text [-> | ->]; apply int_of_digit_group; assumption.
Qed.

Lemma matched_line_columns_witness :
  exists pid_text tid_text tag_text,
    default ∅ (Re.match_ LOGCAT_REGEX line_with_colons) !! "pid"
    = Some pid_text
    /\ default ∅ (Re.match_ LOGCAT_REGEX line_with_colons) !! "tid"
       = Some tid_text
    /\ default ∅ (Re.match_ LOGCAT_REGEX line_with_colons) !! "tag"
       = Some tag_text
    /\ (forall text, text = pid_text \/ text = tid_text ->
        text <> ""
        /\ (Z.of_nat (String.length text) <= Py.MAX_STR_DIGITS ->
            exists value, Py.int text = Py.Ok value /\ 0 <= value)
        /\ (Py.MAX_STR_DIGITS < Z.of_nat (String.length text) ->
            Py.int text = Py.Raise Py.ValueError))
    /\ Py.contains ":" tag_text = false.
Proof.
  apply (matched_line_columns line_with_colons).
  vm_compute. reflexivity.
Defined.

(** the columns of the sample line *)
Example matched_line_columns_ex :
  let data := default ∅ (Re.match_ LOGCAT_REGEX line_with_colons) in
  (data !! "pid" ≫= fun text => Some (Py.int text)) = Some (Py.Ok 1234)
  /\ (data !! "tid" ≫= fun text => Some (Py.int text)) = Some (Py.Ok 5678)
  /\ data !! "tag" = Some "MyTag".
Proof. vm_compute. repeat split; reflexivity. Qed.

(** the message keeps the later colons *)
Example message_keeps_colons :
  default ∅ (Re.match_ LOGCAT_REGEX line_with_colons) !! "message"
  = Some "a: b: c".
Proof. vm_compute. reflexivity. Qed.

(** ** The archive writer, continued *)

Section RecorderMore.

Import Recorder.

Variable encoded_size : string -> Z.
Variable timestamp_base : string.

Lemma tell_write_other (fs : gmap string (list string)) (f g line : string) :
  f <> g ->
  tell encoded_size (write f line fs) g = tell encoded_size fs g.
Proof.
  intros Hne. unfold tell, write. rewrite lookup_insert_ne by exact Hne.
  reflexivity.
Qed.

Lemma tell_open_other (fs : gmap string (list string)) (f g : string) :
  f <> g ->
  tell encoded_size (open_w f fs) g = tell encoded_size fs g.
Proof.
  intros Hne. unfold tell, open_w. rewrite lookup_insert_ne by exact Hne.
  reflexivity.
Qed.

Lemma tell_open (fs : gmap string (list string)) (f : string) :
  tell encoded_size (open_w f fs) f = 0.
Proof. unfold tell, open_w. rewrite lookup_insert_eq. reflexivity. Qed.

(** sizes along the loop: the parts already closed are over the
    threshold, the open one is not *)
Lemma record_loop_sizes (self0 : LiveLogcatPro) (events : list Event) :
  forall (self : LiveLogcatPro) (f : string)
         (fs : gmap string (list string)) (a : Z),
  save_dir self = save_dir self0 ->
  device_id self = device_id self0 ->
  f = part_path self0 timestamp_base (rotation_index self) ->
  current_file_path self = f ->
  a < rotation_index self ->
  0 <= max_file_size_mb self ->
  (forall i, a < i < rotation_index self ->
     max_file_size_mb self * 1024 * 1024
     < tell encoded_size fs (part_path self0 timestamp_base i)) ->
  tell encoded_size fs f <= max_file_size_mb self * 1024 * 1024 ->
  let out := record_loop encoded_size timestamp_base events self f fs in
  (forall i, a < i < rotation_index out.1 ->
     max_file_size_mb self * 1024 * 1024
     < tell encoded_size out.2 (part_path self0 timestamp_base i))
  /\ tell encoded_size out.2
       (part_path self0 timestamp_base (rotation_index out.1))
     <= max_file_size_mb self * 1024 * 1024
  /\ current_file_path out.1
     = part_path self0 timestamp_base (rotation_index out.1).
Proof.
  induction events as [| [line |] events IH];
    intros self f fs a Hd Hi Hf Hcur Ha Hmb Hclosed Hopen; cbn [record_loop].
  - simpl. rewrite <- Hf. repeat split; assumption.
  - destruct (is_recording self) eqn:Hrec; cbn [negb].
    + destruct (Z.ltb_spec (max_file_size_mb self * 1024 * 1024)
                  (tell encoded_size (write f line fs) f)) as [Hover | Hfits].
      * destruct (get_new_filepath_spec timestamp_base self)
          as (self2 & -> & Hr2 & Hd2 & Hi2 & Hrec2 & Hm2).
        rewrite (part_path_fields timestamp_base self self0 _ Hd Hi).
        set (path := part_path self0 timestamp_base (rotation_index self + 1)).
        assert (path <> f) as Hpf.
        { subst path f. intros Heq. apply part_path_inj in Heq. lia. }
        destruct (IH (set_current_file_path path self2) path
                    (open_w path (write f line fs)) a)
          as (Hc' & Ho' & Hcur').
        { simpl. congruence. }
        { simpl. congruence. }
        { simpl. rewrite Hr2. reflexivity. }
        { reflexivity. }
        { simpl. lia. }
        { simpl. lia. }
        { simpl. rewrite Hr2, Hm2. intros i Hi'.
          rewrite tell_open_other.
          - destruct (Z.eq_dec i (rotation_index self)) as [-> | Hne].
            + rewrite <- Hf. exact Hover.
            + rewrite tell_write_other; [apply Hclosed; lia |].
              rewrite Hf. intros Heq. apply part_path_inj in Heq. lia.
          - subst path. intros Heq. apply part_path_inj in Heq. lia. }
        { simpl. rewrite tell_open, Hm2. lia. }
        simpl in Hc', Ho', Hcur'. rewrite Hm2 in Hc', Ho'.
        repeat split; assumption.
      * apply (IH self f (write f line fs) a); try assumption.
        intros i Hi'. rewrite tell_write_other; [apply Hclosed; exact Hi' |].
        rewrite Hf. intros Heq. apply part_path_inj in Heq. lia.
    + simpl. rewrite <- Hf. repeat split; assumption.
  - apply (IH (set_is_recording false self) f fs a); assumption.
Qed.

(** X14: two parts of a session never share a file, so a rotation never
    truncates an earlier segment: opening part [j] and writing to it
    leaves the text of every other part as it was. *)
Theorem parts_never_share_a_file (self : LiveLogcatPro) (i j : Z)
    (line : string) (fs : gmap string (list string)) :
  i <> j ->
  let part_i := part_path self timestamp_base i in
  let part_j := part_path self timestamp_base j in
  part_i <> part_j
  /\ read_text (write part_j line (open_w part_j fs)) part_i
     = read_text fs part_i.
Proof.
  intros Hne. cbv zeta.
  assert (part_path self timestamp_base j <> part_path self timestamp_base i)
    as Hp.
  { intros Heq. apply part_path_inj in Heq. congruence. }
  split; [congruence |].
  unfold read_text, write, open_w.
  rewrite !lookup_insert_ne by exact Hp. reflexivity.
Qed.

(** X15: when the worker ends, it has opened at least one part, every
    part it has closed is larger than the threshold, the part still open
    is not, and [current_file_path] names the open part. *)
Theorem closed_parts_exceed_the_threshold (events : list Event)
    (self : LiveLogcatPro) (fs : gmap string (list string)) :
  0 <= max_file_size_mb self ->
  let out := _recorder_worker encoded_size timestamp_base events self fs in
  let threshold := max_file_size_mb self * 1024 * 1024 in
  rotation_index self < rotation_index out.1
  /\ (forall i, rotation_index self < i < rotation_index out.1 ->
      threshold < tell encoded_size out.2 (part_path self timestamp_base i))
  /\ tell encoded_size out.2
       (part_path self timestamp_base (rotation_index out.1))
     <= threshold
  /\ current_file_path out.1
     = part_path self timestamp_base (rotation_index out.1).
Proof.
  intros Hmb. unfold _recorder_worker.
  destruct (get_new_filepath_spec timestamp_base self)
    as (self2 & -> & Hr2 & Hd2 & Hi2 & Hrec2 & Hm2).
  set (path := part_path self timestamp_base (rotation_index self + 1)).
  cbv zeta.
  pose proof (record_loop_index_mono encoded_size timestamp_base events
                (set_current_file_path path self2) path (open_w path fs))
    as Hmono.
  destruct (record_loop_sizes self events (set_current_file_path path self2)
              path (open_w path fs) (rotation_index self))
    as (Hc & Ho & Hcur).
  { simpl. congruence. }
  { simpl. congruence. }
  { simpl. rewrite Hr2. reflexivity. }
  { reflexivity. }
  { simpl. lia. }
  { simpl. lia. }
  { simpl. rewrite Hr2. intros k Hk. lia. }
  { simpl. rewrite tell_open, Hm2. lia. }
  simpl in Hc, Ho, Hmono. rewrite Hm2 in Hc, Ho.
  split; [lia |]. split; [exact Hc |]. split; [exact Ho | exact Hcur].
Qed.

End RecorderMore.

Lemma parts_never_share_a_file_witness :
  let part_i := Recorder.part_path sample_recorder "20250107_123456" 1 in
  let part_j := Recorder.part_path sample_recorder "20250107_123456" 2 in
  part_i <> part_j
  /\ Recorder.read_text
       (Recorder.write part_j "x" (Recorder.open_w part_j ∅)) part_i
     = Recorder.read_text ∅ part_i.
Proof.
  apply (parts_never_share_a_file "20250107_123456" sample_recorder 1 2 "x"
           ∅).
  discriminate.
Defined.

Lemma closed_parts_exceed_the_threshold_witness :
  let out := Recorder._recorder_worker block_size "20250107_123456"
               sample_session sample_recorder ∅ in
  let threshold := Recorder.max_file_size_mb sample_recorder * 1024 * 1024 in
  Recorder.rotation_index sample_recorder < Recorder.rotation_index out.1
  /\ (forall i,
      Recorder.rotation_index sample_recorder < i
      < Recorder.rotation_index out.1 ->
      threshold
      < Recorder.tell block_size out.2
          (Recorder.part_path sample_recorder "20250107_123456" i))
  /\ Recorder.tell block_size out.2
       (Recorder.part_path sample_recorder "20250107_123456"
          (Recorder.rotation_index out.1))
     <= threshold
  /\ Recorder.current_file_path out.1
     = Recorder.part_path sample_recorder "20250107_123456"
         (Recorder.rotation_index out.1).
Proof.
  apply (closed_parts_exceed_the_threshold block_size "20250107_123456"
           sample_session sample_recorder ∅).
  vm_compute. discriminate.
Defined.

(** the sample session closes part 1 over the threshold of 1 MiB (1048576
    bytes) and ends in part 2; a session without rotation ends in part 1, within the
    threshold *)
Example closed_parts_ex :
  let out := Recorder._recorder_worker block_size "20250107_123456"
               sample_session sample_recorder ∅ in
  let quiet := Recorder._recorder_worker block_size "20250107_123456"
                 [Recorder.Line "ab"] sample_recorder ∅ in
  Recorder.rotation_index out.1 = 2
  /\ Recorder.tell block_size out.2
       (Recorder.part_path sample_recorder "20250107_123456" 1) = 1835008
  /\ Recorder.rotation_index quiet.1 = 1
  /\ Recorder.current_file_path quiet.1
     = "captured_logs/logcat_0123456789ABCDEF_20250107_123456_part1.txt"
  /\ Recorder.tell block_size quiet.2 (Recorder.current_file_path quiet.1)
     = 524288.
Proof. vm_compute. repeat split; reflexivity. Qed.

(** ** The foreground monitor of [LiveLogcatPro] *)

Lemma prefix_needle_app (a b s : string) :
  String.prefix (a +:+ b) s = true -> String.prefix a s = true.
Proof.
  revert s. induction a as [| c a IH]; intros s H.
  - destruct s; reflexivity.
  - change (String c a +:+ b) with (String c (a +:+ b)) in H.
    destruct s as [| d s]; [discriminate H |].
    cbn [String.prefix] in H |- *.
    destruct (ascii_dec c d); [apply IH; exact H | discriminate H].
Qed.

Lemma contains_needle_app (a b s : string) :
  Py.contains (a +:+ b) s = true -> Py.contains a s = true.
Proof.
  induction s as [| d s IH]; cbn [Py.contains]; intros H.
  - apply orb_prop in H as [H | H]; [| discriminate H].
    rewrite (prefix_needle_app a b _ H). reflexivity.
  - apply orb_prop in H as [H | H].
    + rewrite (prefix_needle_app a b _ H). reflexivity.
    + rewrite (IH H). apply orb_true_r.
Qed.

Lemma fatal_exception_is_fatal (s : string) :
  Py.contains "FATAL EXCEPTION" s = true -> Py.contains "FATAL" s = true.
Proof. apply (contains_needle_app "FATAL" " EXCEPTION"). Qed.

(** X16: the foreground monitor prints a line white on red exactly when it
    holds FATAL, or holds both the AndroidRuntime tag and the error
    column; the style bold red that the colour chain gives to a FATAL line
    is never used for it, and is left to the other error lines. *)
Theorem console_highlight_rule (line : string) :
  let p := Console.print_line line in
  let s := Py.strip line in
  String.eqb (Console.style p) "bold white on red"
  = Py.contains "FATAL" s
    || Py.contains " AndroidRuntime:" s && Py.contains " E " s
  /\ String.eqb (Console.style p) "bold red"
     = Py.contains " E " s && negb (Py.contains "FATAL" s)
       && negb (Py.contains " AndroidRuntime:" s)
  /\ Console.text p = s.
Proof.
  cbv zeta. unfold Console.print_line, Console.level_style.
  pose proof (fatal_exception_is_fatal (Py.strip line)) as Hfe.
  destruct (Py.contains "FATAL EXCEPTION" (Py.strip line));
    [rewrite (Hfe eq_refl) |]; clear Hfe;
    destruct (Py.contains "FATAL" (Py.strip line));
    destruct (Py.contains " AndroidRuntime:" (Py.strip line));
    destruct (Py.contains " E " (Py.strip line));
    destruct (Py.contains " W " (Py.strip line));
    destruct (Py.contains " D " (Py.strip line));
    destruct (Py.contains " I " (Py.strip line));
    destruct (Py.contains " V " (Py.strip line));
    repeat split; reflexivity.
Qed.

(** ** The analyzer, continued *)

Lemma ivi_parse_inv (self : Ivi.LogcatAnalyzer) (line : string)
    (parsed : Ivi.Parsed) :
  Ivi._parse_log_line self line = Some parsed ->
  exists m g5,
    Re.match_ Ivi.pattern line = Some m
    /\ m !! "4" = Some (Ivi.p_level parsed)
    /\ m !! "5" = Some g5
    /\ Ivi.p_tag parsed = Py.strip g5
    /\ m !! "6" = Some (Ivi.p_message parsed).
Proof.
  unfold Ivi._parse_log_line.
  destruct (Re.match_ Ivi.pattern line) as [m |]; [| discriminate].
  cbn [mbind option_bind].
  destruct (m !! "1") as [g1 |]; [| discriminate]. cbn [option_bind].
  destruct (m !! "2") as [g2 |]; [| discriminate]. cbn [option_bind].
  destruct (m !! "3") as [g3 |]; [| discriminate]. cbn [option_bind].
  destruct (m !! "4") as [g4 |] eqn:H4; [| discriminate]. cbn [option_bind].
  destruct (m !! "5") as [g5 |] eqn:H5; [| discriminate]. cbn [option_bind].
  destruct (m !! "6") as [g6 |] eqn:H6; [| discriminate]. cbn [option_bind].
  intros [= <-]. exists m, g5. cbn [Ivi.p_level Ivi.p_tag Ivi.p_message].
  repeat split; assumption || reflexivity.
Qed.

Lemma one_level_letter (text : string) :
  Py.all_chars (Re.in_set (Re.OneOf "VDIWEF")) text = true ->
  (1 <= String.length text)%nat ->
  (String.length text <= 1)%nat ->
  In text ["V"; "D"; "I"; "W"; "E"; "F"].
Proof.
  destruct text as [| c [| d text]]; simpl; try lia. intros Hc _ _.
  rewrite andb_true_r in Hc.
  destruct c as [[] [] [] [] [] [] [] []]; try discriminate Hc; tauto.
Qed.

Lemma all_chars_lstrip (p : ascii -> bool) (s : string) :
  Py.all_chars p s = true -> Py.all_chars p (Py.lstrip s) = true.
Proof.
  induction s as [| c s IH]; [auto |]. intros H. simpl.
  destruct (Py.isspace c); [| exact H].
  simpl in H. apply andb_prop in H as [_ H]. auto.
Qed.

Lemma all_chars_rstrip (p : ascii -> bool) (s : string) :
  Py.all_chars p s = true -> Py.all_chars p (Py.rstrip s) = true.
Proof.
  induction s as [| c s IH]; [auto |]. intros H.
  simpl in H. apply andb_prop in H as [Hc Hs]. specialize (IH Hs).
  simpl. destruct (Py.rstrip s) as [| d t].
  - destruct (Py.isspace c); simpl; [reflexivity | rewrite Hc; reflexivity].
  - cbn [Py.all_chars] in IH |- *. rewrite Hc. exact IH.
Qed.

(** what the analyzer reads out of a parsed line: one of the six level
    letters, and a tag without colon *)
Lemma ivi_parse_columns (self : Ivi.LogcatAnalyzer) (line : string)
    (parsed : Ivi.Parsed) :
  Ivi._parse_log_line self line = Some parsed ->
  In (Ivi.p_level parsed) ["V"; "D"; "I"; "W"; "E"; "F"]
  /\ Py.contains ":" (Ivi.p_tag parsed) = false.
Proof.
  intros Hparse.
  apply ivi_parse_inv in Hparse as (m & g5 & Hm & H4 & H5 & Htag & _).
  destruct (group_of_match Ivi.pattern 22 "4" (Re.OneOf "VDIWEF") 1
              (Some 1%nat) line m eq_refl eq_refl Hm)
    as (text & Ht & Hall & Hlo & Hhi).
  rewrite H4 in Ht. injection Ht as <-.
  split; [exact (one_level_letter _ Hall Hlo (Hhi 1%nat eq_refl)) |].
  destruct (group_of_match Ivi.pattern 26 "5" (Re.NoneOf ":") 1 None line m
              eq_refl eq_refl Hm) as (tag & Htg & Hnc & _).
  rewrite H5 in Htg. injection Htg as <-.
  rewrite Htag. apply no_colon_inside. unfold Py.strip.
  apply all_chars_rstrip, all_chars_lstrip. exact Hnc.
Qed.

(** X17: for every line the analyzer parses, the level is one of the six
    letters V, D, I, W, E, F, so [_format_log_line] never falls back on
    the colour white; and the tag holds no colon. *)
Theorem analyzer_level_is_one_of_six (self : Ivi.LogcatAnalyzer)
    (line : string) (parsed : Ivi.Parsed) :
  Ivi._parse_log_line self line = Some parsed ->
  In (Ivi.p_level parsed) ["V"; "D"; "I"; "W"; "E"; "F"]
  /\ Ivi._get_level_color self (Ivi.p_level parsed) <> "white"
  /\ Py.contains ":" (Ivi.p_tag parsed) = false.
Proof.
  intros Hparse.
  destruct (ivi_parse_columns self line parsed Hparse) as [Hin Htag].
  split; [exact Hin |]. split; [| exact Htag].
  simpl in Hin.
  destruct Hin as [<- | [<- | [<- | [<- | [<- | [<- | []]]]]]];
    discriminate.
Qed.

Lemma analyzer_level_is_one_of_six_witness :
  In (Ivi.p_level parsed_crash_info) ["V"; "D"; "I"; "W"; "E"; "F"]
  /\ Ivi._get_level_color sample_analyzer (Ivi.p_level parsed_crash_info)
     <> "white"
  /\ Py.contains ":" (Ivi.p_tag parsed_crash_info) = false.
Proof.
  apply (analyzer_level_is_one_of_six sample_analyzer line_crash_info
           parsed_crash_info).
  vm_compute. reflexivity.
Defined.

(** X18: [_format_log_line] opens the line with the CRASH badge exactly
    when one of the five crash keywords is in the message field, whatever
    the level; the text CRASH is in the formatted line whenever the badge
    is, and also whenever the message itself holds the word CRASH: a
    search for that text in the formatted line finds more lines than
    carry the badge. *)
Theorem crash_text_is_wider_than_the_badge (self : Ivi.LogcatAnalyzer)
    (parsed : Ivi.Parsed) :
  let formatted := Ivi._format_log_line self parsed in
  String.prefix Ivi.CRASH_BADGE formatted = Ivi.is_crash parsed
  /\ implb (Ivi.is_crash parsed || Py.contains "CRASH" (Ivi.p_message parsed))
       (Py.contains "CRASH" formatted) = true.
Proof.
  cbv zeta. split; [apply badge_prefix_is_crash |].
  unfold Ivi._format_log_line.
  destruct (Ivi.is_crash parsed); cbn [orb].
  - rewrite contains_app_l by reflexivity. reflexivity.
  - destruct (Py.contains "CRASH" (Ivi.p_message parsed)) eqn:Hword;
      [| reflexivity].
    cbn [implb]. repeat (apply contains_app_r). exact Hword.
Qed.

(** a message with the word CRASH and no crash keyword: no badge, and the
    text CRASH in the formatted line *)
Example crash_word_ex :
  Ivi._parse_log_line sample_analyzer line_crash_word
  = Some parsed_crash_word
  /\ Ivi.is_crash parsed_crash_word = false
  /\ Ivi._format_log_line sample_analyzer parsed_crash_word
     = "[green]I[/] [dim]01-07 12:34:56.789[/] [cyan]Test[/cyan]: CRASH course booked"
  /\ Py.contains "CRASH"
       (Ivi._format_log_line sample_analyzer parsed_crash_word) = true.
Proof. vm_compute. repeat split; reflexivity. Qed.

Lemma monitor_step_counters (self : Ivi.LogcatAnalyzer) (m : Ivi.Monitor)
    (line : string) :
  let m' := Ivi.monitor_step self m line in
  length (Ivi.printed m')
  = (length (Ivi.printed m) + (if not_blank line then 1 else 0))%nat
  /\ Ivi.crash_count m <= Ivi.crash_count m'
  /\ Ivi.crash_count m' - Ivi.crash_count m
     <= Ivi.line_count m' - Ivi.line_count m
  /\ Ivi.line_count m' - Ivi.line_count m
     <= (if not_blank line then 1 else 0).
Proof.
  cbv zeta. unfold Ivi.monitor_step, not_blank.
  destruct (Py.strip line) as [| c s]; [repeat split; lia |].
  destruct (Ivi._parse_log_line self (String c s)) as [parsed |];
    cbn [Ivi.printed Ivi.line_count Ivi.crash_count];
    rewrite length_app; cbn [length].
  - destruct (Py.contains "CRASH" (Ivi._format_log_line self parsed));
      repeat split; lia.
  - repeat split; lia.
Qed.

(** the counters over a whole stream *)
Lemma monitor_fold_counters (self : Ivi.LogcatAnalyzer)
    (lines : list string) :
  forall m : Ivi.Monitor,
  let m' := fold_left (Ivi.monitor_step self) lines m in
  length (Ivi.printed m')
  = (length (Ivi.printed m) + length (List.filter not_blank lines))%nat
  /\ Ivi.crash_count m <= Ivi.crash_count m'
  /\ Ivi.crash_count m' - Ivi.crash_count m
     <= Ivi.line_count m' - Ivi.line_count m
  /\ Ivi.line_count m' - Ivi.line_count m
     <= Z.of_nat (length (List.filter not_blank lines)).
Proof.
  induction lines as [| line lines IH]; intros m; cbv zeta.
  - simpl. repeat split; lia.
  - cbn [fold_left List.filter].
    destruct (monitor_step_counters self m line) as (Hp & Hc & Hcl & Hl).
    destruct (IH (Ivi.monitor_step self m line)) as (Hp' & Hc' & Hcl' & Hl').
    destruct (not_blank line); cbn [length]; repeat split; lia.
Qed.


(** ** [LogcatAdvanced]: command and session report *)

Lemma truthy_length (s : string) :
  Advanced.truthy s = true -> (0 < String.length s)%nat.
Proof. destruct s; simpl; [discriminate | lia]. Qed.

(** X20: the command of [LogcatAdvanced] always starts with the bare
    threadtime command, and it is the bare command exactly for the
    initial configuration: any level but V, and any tag, keyword or
    exclusion that is not empty, adds an option to it. *)
Theorem build_cmd_bare_iff_default (filter_config : Ivi.FilterConfig) :
  String.prefix "logcat -v threadtime" (Advanced._build_cmd filter_config)
  = true
  /\ (Advanced._build_cmd filter_config = "logcat -v threadtime"
      <-> filter_config = Advanced.default_config).
Proof.
  destruct filter_config as [lv tg kw ex]. unfold Advanced._build_cmd.
  cbn [Ivi.cfg_level Ivi.cfg_tag Ivi.cfg_keyword Ivi.cfg_exclude].
  split.
  - destruct (negb (String.eqb lv "V")), (Advanced.truthy tg),
      (Advanced.truthy kw), (Advanced.truthy ex);
      rewrite ?string_app_assoc;
      first [reflexivity | apply prefix_of_app].
  - split.
    + intros H. apply (f_equal String.length) in H.
      destruct (String.eqb_spec lv "V") as [-> | Hlv]; cbn [negb] in H.
      * destruct tg as [| c tg]; cbn [Advanced.truthy] in H.
        -- destruct kw as [| c kw]; cbn [Advanced.truthy] in H.
           ++ destruct ex as [| c ex]; cbn [Advanced.truthy] in H;
                [reflexivity |].
              rewrite !string_length_app in H. simpl in H. lia.
           ++ destruct (Advanced.truthy ex);
                rewrite !string_length_app in H; simpl in H; lia.
        -- destruct (Advanced.truthy kw), (Advanced.truthy ex);
             rewrite !string_length_app in H; simpl in H; lia.
      * destruct (Advanced.truthy tg), (Advanced.truthy kw),
          (Advanced.truthy ex);
          rewrite !string_length_app in H; simpl in H; lia.
    + intros [= -> -> -> ->]. reflexivity.
Qed.

Lemma tally_line_steps (t : Advanced.Tally) (line : string) :
  let t' := Advanced.tally_line t line in
  Advanced.count_F t' = Advanced.count_F t + (if fatal_line line then 1 else 0)
  /\ Advanced.count_E t <= Advanced.count_E t'
  /\ Advanced.count_W t <= Advanced.count_W t'
  /\ Advanced.count_F t' + Advanced.count_E t' + Advanced.count_W t'
     <= Advanced.count_F t + Advanced.count_E t + Advanced.count_W t + 1
  /\ Z.of_nat (length (Advanced.crash_snippets t'))
     - Z.of_nat (length (Advanced.crash_snippets t))
     <= Advanced.count_F t' - Advanced.count_F t.
Proof.
  cbv zeta. unfold Advanced.tally_line, fatal_line.
  pose proof (fatal_exception_is_fatal (Py.strip line)) as Hfe.
  destruct (Py.contains "FATAL EXCEPTION" (Py.strip line));
    [rewrite (Hfe eq_refl), orb_true_r |]; clear Hfe;
    destruct (Py.contains " F " (Py.strip line));
    destruct (Py.contains "FATAL" (Py.strip line));
    destruct (Py.contains " E " (Py.strip line));
    destruct (Py.contains " W " (Py.strip line));
    cbn [orb Advanced.count_F Advanced.count_E Advanced.count_W
         Advanced.crash_snippets];
    rewrite ?length_app; cbn [length]; repeat split; lia.
Qed.

Lemma tally_fold (logs : list string) :
  forall t : Advanced.Tally,
  let t' := fold_left Advanced.tally_line logs t in
  Advanced.count_F t'
  = Advanced.count_F t + Z.of_nat (length (List.filter fatal_line logs))
  /\ Advanced.count_E t <= Advanced.count_E t'
  /\ Advanced.count_W t <= Advanced.count_W t'
  /\ Advanced.count_F t' + Advanced.count_E t' + Advanced.count_W t'
     <= Advanced.count_F t + Advanced.count_E t + Advanced.count_W t
        + Z.of_nat (length logs)
  /\ Z.of_nat (length (Advanced.crash_snippets t'))
     - Z.of_nat (length (Advanced.crash_snippets t))
     <= Advanced.count_F t' - Advanced.count_F t.
Proof.
  induction logs as [| line logs IH]; intros t; cbv zeta.
  - simpl. repeat split; lia.
  - cbn [fold_left List.filter].
    destruct (tally_line_steps t line) as (HF & HE & HW & Hsum & Hsn).
    destruct (IH (Advanced.tally_line t line))
      as (HF' & HE' & HW' & Hsum' & Hsn').
    rewrite HF in HF'. cbn [length].
    destruct (fatal_line line); cbn [length]; repeat split; lia.
Qed.



(** nothing is reported for an empty capture, and the sample capture is
    reported red with its one snippet *)
Example analyze_session_ex :
  Advanced._analyze_session [] = None
  /\ (let '(_, t, color, shown) :=
        default (0, Advanced.mkTally 0 0 0 [], "", [])
          (Advanced._analyze_session sample_capture) in
      (Advanced.count_F t, Advanced.count_E t, Advanced.count_W t, color,
       shown))
     = (1, 1, 1, "bold red",
        ["01-07 12:34:56.789  1234  5678 E AndroidRuntime: FATAL EXCEPTION: main..."]).
Proof. vm_compute. split; reflexivity. Qed.

